(** * xodraw: the X's and O's drawing module, embedded and verified

    A shallow embedding of [xodraw.py].  The module talks to the ColabTurtle
    drawing surface only by issuing commands; it never reads the canvas
    back.  A call is therefore modelled by the list of turtle commands it
    issues, in order, together with the way it ends: normally, or with the
    Python exception that escaped it.

    Conventions of the embedding.
    - Python [int] is [Z], and its arithmetic is exact.
    - Python [float] is binary64, with the operations of [SpecFloat].  The
      true division of two ints, [a / b], is the quotient of the two
      integers rounded once to the nearest double; [int * float] rounds the
      int to a double first.  So [math.floor(size / 3)] is the floor of a
      rounded quotient: it is the integer quotient at ordinary sizes, and
      one more at [3 * 2^52 + 2].  Neither 0.2 nor 1.4 is a double, and the
      rounding of [1.4 * cellSize] shows at ordinary sizes.
    - In the loop of [drawBoard] the quotient [math.floor(i / len(board))]
      of an index by a length is the integer quotient: an index into a list
      is far below 2^53, where the rounded quotient has the same floor.
    - Where Python stops with [OverflowError], for ints beyond the range of
      a double (from [2^1024] on), the model goes on with [math.floor] at 0:
      statements that depend on the size are made for sizes within that
      range.
    - [str] is [string], for strings over the ASCII range; [str.lower] puts
      the letters A to Z in lower case.
    - [dict] is a [gmap]; a missing key raises [KeyError].
    - list indexing follows Python: a negative index counts from the end,
      an index out of range raises [IndexError]. *)

From Stdlib Require Import ZArith List Ascii String Bool Lia.
From Stdlib Require Import Floats.SpecFloat.
From stdpp Require Import base tactics option list gmap strings.

Local Open Scope Z_scope.

(** ** Python values *)

Module Py.

(** [str.lower], on the ASCII range. *)
Definition lower_ascii (a : ascii) : ascii :=
  let n := N_of_ascii a in
  if ((65 <=? n) && (n <=? 90))%N then ascii_of_N (n + 32) else a.

Fixpoint lower (s : string) : string :=
  match s with
  | EmptyString => EmptyString
  | String a s' => String (lower_ascii a) (lower s')
  end.

(** [len(l)] *)
Definition len {A} (l : list A) : Z := Z.of_nat (length l).

(** [range(a, b)]: the integers a, a+1, ..., b-1; empty when [b <= a]. *)
Definition range (a b : Z) : list Z :=
  map (fun k => a + Z.of_nat k) (seq 0 (Z.to_nat (b - a))).

(** binary64 *)
Definition float := spec_float.
Definition prec : Z := 53.
Definition emax : Z := 1024.

(** Conversion of an int to a float, as done by [int * float] and
    [int / int]: round to nearest, ties to even. *)
Definition of_int (z : Z) : float := binary_normalize prec emax z 0 false.

Definition fmul (x y : float) : float := SFmul prec emax x y.

(** An int as it enters a true division: not rounded. *)
Definition unrounded (z : Z) : float :=
  match z with
  | Z0 => S754_zero false
  | Zpos p => S754_finite false p 0
  | Zneg p => S754_finite true p 0
  end.

(** [a / b] on ints: the quotient of the integers, rounded once to the
    nearest double, ties to even. *)
Definition truediv (a b : Z) : float := SFdiv prec emax (unrounded a) (unrounded b).

(** A decimal literal [n/10^k] denotes the double nearest to it. *)
Definition lit_0_2 : float := Eval vm_compute in truediv 2 10.
Definition lit_1_4 : float := Eval vm_compute in truediv 14 10.

(** [math.floor] of a float.  On an infinity or a NaN Python raises; these
    arise only from ints beyond the range of a double. *)
Definition floor (x : float) : Z :=
  match x with
  | S754_finite s m e => Z.shiftl (cond_Zopp s (Zpos m)) e
  | _ => 0
  end.

End Py.

(** ** The drawing surface *)

(** The commands of ColabTurtle that the module issues. *)
Inductive cmd : Type :=
  | InitializeTurtle (speed : Z) (canvas : Z * Z)
  | HideTurtle
  | Color (c : string)
  | PenUp
  | PenDown
  | Goto (x y : Z)
  | TurnRight (angle : Py.float)
  | Forward (units : Z).

(** The exceptions that can escape the module. *)
Inductive exn : Type :=
  | IndexError
  | KeyError (key : string).

Inductive outcome (A : Type) : Type :=
  | Ok (a : A)
  | Raised (e : exn).
Arguments Ok {A} a.
Arguments Raised {A} e.

(** A computation: what it drew before it ended, and how it ended. *)
Record Draw (A : Type) : Type := MkDraw { trace : list cmd; result : outcome A }.
Arguments MkDraw {A} trace result.
Arguments trace {A} d.
Arguments result {A} d.

Definition ret {A} (a : A) : Draw A := MkDraw [] (Ok a).
Definition raise {A} (e : exn) : Draw A := MkDraw [] (Raised e).
Definition emit (c : cmd) : Draw unit := MkDraw [c] (Ok tt).

Definition bind {A B} (m : Draw A) (k : A -> Draw B) : Draw B :=
  match m with
  | MkDraw t (Ok a) => let r := k a in MkDraw (t ++ trace r) (result r)
  | MkDraw t (Raised e) => MkDraw t (Raised e)
  end.

#[global] Instance Draw_ret : MRet Draw := @ret.
#[global] Instance Draw_bind : MBind Draw := fun A B k m => bind m k.

(** [for x in xs: body(x)] *)
Fixpoint for_ {A} (xs : list A) (body : A -> Draw unit) : Draw unit :=
  match xs with
  | [] => ret tt
  | x :: xs' => body x ;; for_ xs' body
  end.

(** [l[i]] *)
Definition getitem {A} (l : list A) (i : Z) : Draw A :=
  let j := if i <? 0 then i + Py.len l else i in
  if (0 <=? j) && (j <? Py.len l) then
    match l !! Z.to_nat j with
    | Some x => ret x
    | None => raise IndexError
    end
  else raise IndexError.

(** [d[k]] *)
Definition lookup_key (d : gmap string string) (k : string) : Draw string :=
  match d !! k with
  | Some v => ret v
  | None => raise (KeyError k)
  end.

Module Turtle.
Definition initializeTurtle (speed : Z) (canvas : Z * Z) := emit (InitializeTurtle speed canvas).
Definition hideturtle := emit HideTurtle.
Definition color (c : string) := emit (Color c).
Definition penup := emit PenUp.
Definition pendown := emit PenDown.
Definition goto (x y : Z) := emit (Goto x y).
Definition right (angle : Py.float) := emit (TurnRight angle).
Definition forward (units : Z) := emit (Forward units).
End Turtle.
Import Turtle.

(** ** The module *)

Definition drawNewBoard (size : Z) (colour : string) (margin : Z) : Draw unit :=
  let cellSize := Py.floor (Py.truediv size 3) in
  let boardSize := (cellSize * 3, cellSize * 3) in
  let canvasSize := (size + 2 * margin, size + 2 * margin) in
  initializeTurtle 10 canvasSize ;;
  hideturtle ;;
  color colour ;;
  (* left vertical line *)
  penup ;;
  goto (margin + cellSize) margin ;;
  pendown ;;
  goto (margin + cellSize) (margin + boardSize.2) ;;
  (* right vertical line *)
  penup ;;
  goto (margin + boardSize.1 - cellSize) margin ;;
  pendown ;;
  goto (margin + boardSize.1 - cellSize) (margin + boardSize.2) ;;
  (* upper horizontal line *)
  penup ;;
  goto margin (margin + cellSize) ;;
  pendown ;;
  goto (margin + boardSize.1) (margin + cellSize) ;;
  (* lower horizontal line *)
  penup ;;
  goto margin (margin + boardSize.2 - cellSize) ;;
  pendown ;;
  goto (margin + boardSize.1) (margin + boardSize.2 - cellSize).

Definition drawMarker (team : string) (pos : Z * Z) (size : Z) (colour : string)
    (margin : Z) : Draw unit :=
  let cellSize := Py.floor (Py.truediv size 3) in
  let x_offset := Py.floor (Py.fmul (Py.of_int cellSize) Py.lit_0_2) in
  let o_offset_horizontal := Py.floor (Py.fmul (Py.of_int cellSize) Py.lit_0_2) in
  let o_offset_vertical := Py.floor (Py.truediv cellSize 2) in
  hideturtle ;;
  color colour ;;
  if String.eqb (Py.lower team) "o" then
    penup ;;
    goto (margin + cellSize * pos.2 + o_offset_horizontal)
         (margin + cellSize * pos.1 + o_offset_vertical) ;;
    pendown ;;
    let steps := Py.floor (Py.fmul Py.lit_1_4 (Py.of_int cellSize)) - o_offset_horizontal * 2 in
    let step_len := 2 in
    for_ (Py.range 0 steps) (fun s =>
      for_ (Py.range 0 step_len) (fun ss =>
        right (Py.truediv 360 (steps * step_len)) ;;
        forward 1))
  else if String.eqb (Py.lower team) "x" then
    (* top-left to bottom-right *)
    penup ;;
    goto (margin + cellSize * pos.2 + x_offset)
         (margin + cellSize * pos.1 + x_offset) ;;
    pendown ;;
    goto (margin + cellSize * pos.2 + (cellSize - x_offset))
         (margin + cellSize * pos.1 + (cellSize - x_offset)) ;;
    (* top-right to bottom-left *)
    penup ;;
    goto (margin + cellSize * pos.2 + (cellSize - x_offset))
         (margin + cellSize * pos.1 + x_offset) ;;
    pendown ;;
    goto (margin + cellSize * pos.2 + x_offset)
         (margin + cellSize * pos.1 + (cellSize - x_offset))
  else ret tt.

Definition drawWin (startPos endPos : Z * Z) (size : Z) (colour : string)
    (margin : Z) : Draw unit :=
  let cellSize := Py.floor (Py.truediv size 3) in
  let offset := Py.floor (Py.truediv cellSize 2) in
  hideturtle ;;
  color colour ;;
  penup ;;
  goto (margin + cellSize * startPos.2 + offset)
       (margin + cellSize * startPos.1 + offset) ;;
  pendown ;;
  goto (margin + cellSize * endPos.2 + offset)
       (margin + cellSize * endPos.1 + offset).

(** A move of a game: the tuple [(row, col, team)]. *)
Definition move : Type := Z * Z * string.

(** The default of the [xy_colour] parameter. *)
Definition default_xy_colour : gmap string string :=
  <["X" := "red"]> (<["O" := "green"]> (<["" := "white"]> ∅)).

Definition drawBoard (board : list (list string)) (size : Z) (board_colour : string)
    (xy_colour : gmap string string) (margin : Z) (newBoard : bool) : Draw unit :=
  (if (Py.len board =? 0) || newBoard
   then drawNewBoard size board_colour margin else ret tt) ;;
  if Py.len board <? 1 then ret tt else
  row0 ← getitem board 0 ;
  if Py.len row0 <? 1 then ret tt else
  row0 ← getitem board 0 ;
  for_ (Py.range 0 (Py.len board * Py.len row0)) (fun i =>
    let row := i / Py.len board in
    let col := i mod Py.len board in
    line ← getitem board row ;
    team ← getitem line col ;
    colour ← lookup_key xy_colour team ;
    drawMarker team (row, col) size colour margin).

Definition drawGame (game : list move) (numMoves : Z) (size : Z) (board_colour : string)
    (xy_colour : gmap string string) (margin : Z) (newBoard : bool) : Draw unit :=
  (if (Py.len game <? 1) || newBoard
   then drawNewBoard size board_colour margin else ret tt) ;;
  let firstMove := Py.len game - numMoves in
  let firstMove := if numMoves <? 1 then 0 else firstMove in
  let lastMove := Py.len game in
  for_ (Py.range firstMove lastMove) (fun i =>
    row ← (m ← getitem game i ; ret m.1.1) ;
    col ← (m ← getitem game i ; ret m.1.2) ;
    team ← (m ← getitem game i ; ret m.2) ;
    colour ← lookup_key xy_colour team ;
    drawMarker team (row, col) size colour margin).

(** ** Reading a trace *)

(** The straight strokes a trace leaves on the canvas, for traces that move
    the pen by [Goto] only: a [Goto] with the pen down draws from the pen's
    position to the target.  [down] and [pos] are the pen's state before the
    trace; [pos = None] is a position that is not known.  The answer is
    [None] when the strokes cannot be told from the commands alone: a
    [Forward] (its end point depends on the heading) or a [Goto] with the pen
    down from a position that is not known. *)
Definition stroke : Type := (Z * Z) * (Z * Z).

Fixpoint strokes (down : bool) (pos : option (Z * Z)) (t : list cmd)
    : option (list stroke) :=
  match t with
  | [] => Some []
  | InitializeTurtle _ _ :: t' => strokes true None t'
  | PenUp :: t' => strokes false pos t'
  | PenDown :: t' => strokes true pos t'
  | Goto x y :: t' =>
      if down then
        match pos with
        | Some p => cons (p, (x, y)) <$> strokes down (Some (x, y)) t'
        | None => None
        end
      else strokes down (Some (x, y)) t'
  | Forward _ :: _ => None
  | _ :: t' => strokes down pos t'
  end.

(** How often a blank board was started. *)
Definition is_init (c : cmd) : bool :=
  match c with InitializeTurtle _ _ => true | _ => false end.

Definition boards_drawn (t : list cmd) : nat := length (filter is_init t).

(** ** Vocabulary of the statements *)

(** The commands of [drawNewBoard], with [c] the cell size. *)
Definition grid_trace (size margin c : Z) (colour : string) : list cmd :=
  [ InitializeTurtle 10 (size + 2 * margin, size + 2 * margin); HideTurtle; Color colour;
    PenUp; Goto (margin + c) margin; PenDown; Goto (margin + c) (margin + 3 * c);
    PenUp; Goto (margin + 2 * c) margin; PenDown; Goto (margin + 2 * c) (margin + 3 * c);
    PenUp; Goto margin (margin + c); PenDown; Goto (margin + 3 * c) (margin + c);
    PenUp; Goto margin (margin + 2 * c); PenDown; Goto (margin + 3 * c) (margin + 2 * c) ].

(** The four lines of the grid, with [c] the cell size: the two vertical
    ones, then the two horizontal ones. *)
Definition grid_lines (margin c : Z) : list stroke :=
  [ ((margin + c, margin), (margin + c, margin + 3 * c));
    ((margin + 2 * c, margin), (margin + 2 * c, margin + 3 * c));
    ((margin, margin + c), (margin + 3 * c, margin + c));
    ((margin, margin + 2 * c), (margin + 3 * c, margin + 2 * c)) ].

(** The cell size the functions compute, [math.floor(size / 3)], and the
    half of a cell, [math.floor(cellSize / 2)]: floors of quotients rounded
    to a double. *)
Definition cell_size (size : Z) : Z := Py.floor (Py.truediv size 3).

Definition half (cellSize : Z) : Z := Py.floor (Py.truediv cellSize 2).

(** The sizes for which no computation of the module overflows a double. *)
Definition in_double_range (size : Z) : Prop := Z.abs size < 2 ^ 1024.

(** The largest size for which the quotients are checked case by case
    against the integer quotients. *)
Definition checked_size : Z := 12290.

Definition size_checked (size : Z) : bool := cell_size size =? size / 3.

(** The centre of cell [(r, c)], in canvas coordinates [(x, y)], as the
    functions compute it. *)
Definition cell_centre (size margin : Z) (p : Z * Z) : Z * Z :=
  let cellSize := cell_size size in
  (margin + cellSize * p.2 + half cellSize, margin + cellSize * p.1 + half cellSize).

(** The centre of cell [(r, c)] with the integer quotients [floor(S/3)] and
    [floor(cellSize/2)]. *)
Definition exact_centre (size margin : Z) (p : Z * Z) : Z * Z :=
  let cellSize := size / 3 in
  (margin + cellSize * p.2 + cellSize / 2, margin + cellSize * p.1 + cellSize / 2).

(** The claims on the grid and on the win line with the integer quotients,
    as the specification states them. *)
Definition grid_as_stated (S M : Z) (colour : string) : Prop :=
  strokes false None (trace (drawNewBoard S colour M)) = Some (grid_lines M (S / 3)).

Definition win_line_as_stated (startPos endPos : Z * Z) (S M : Z) (colour : string) : Prop :=
  strokes false None (trace (drawWin startPos endPos S colour M))
  = Some [(exact_centre S M startPos, exact_centre S M endPos)].

(** [drawBoard] with the function it calls for a marker left open. *)
Definition drawBoardWith (marker : string -> Z * Z -> Z -> string -> Z -> Draw unit)
    (board : list (list string)) (size : Z) (board_colour : string)
    (xy_colour : gmap string string) (margin : Z) (newBoard : bool) : Draw unit :=
  (if (Py.len board =? 0) || newBoard
   then drawNewBoard size board_colour margin else ret tt) ;;
  if Py.len board <? 1 then ret tt else
  row0 ← getitem board 0 ;
  if Py.len row0 <? 1 then ret tt else
  row0 ← getitem board 0 ;
  for_ (Py.range 0 (Py.len board * Py.len row0)) (fun i =>
    let row := i / Py.len board in
    let col := i mod Py.len board in
    line ← getitem board row ;
    team ← getitem line col ;
    colour ← lookup_key xy_colour team ;
    marker team (row, col) size colour margin).

(** The commands of a blank board when [b] holds, none otherwise. *)
Definition blank (size : Z) (colour : string) (margin : Z) (b : bool) : list cmd :=
  if b then trace (drawNewBoard size colour margin) else [].

(** One round of the loops of [drawBoard] and [drawGame]: the colour of the
    team is looked up, then the marker is drawn in it. *)
Definition drawMove (size : Z) (xy_colour : gmap string string) (margin : Z)
    (m : move) : Draw unit :=
  colour ← lookup_key xy_colour m.2 ;
  drawMarker m.2 (m.1.1, m.1.2) size colour margin.

(** The team of the move is a key of the colour mapping. *)
Definition has_colour (xy_colour : gmap string string) (m : move) : Prop :=
  is_Some (xy_colour !! m.2).

(** The commands of the marker of one move, in the colour of its team. *)
Definition markerTrace (size : Z) (xy_colour : gmap string string) (margin : Z)
    (m : move) : list cmd :=
  match xy_colour !! m.2 with
  | Some colour => trace (drawMarker m.2 (m.1.1, m.1.2) size colour margin)
  | None => []
  end.

(** The commands of the markers of a list of moves, in the order of the list. *)
Definition markers (size : Z) (xy_colour : gmap string string) (margin : Z)
    (ms : list move) : list cmd :=
  concat (map (markerTrace size xy_colour margin) ms).

(** The last [n] moves of a game, in their order; all of them when the game
    has no more than [n]. *)
Definition lastMoves (n : Z) (game : list move) : list move :=
  drop (length game - Z.to_nat n) game.

(** The moves the documentation of [numMoves] selects: the last [numMoves]
    from 1 on, every move below 1. *)
Definition window (numMoves : Z) (game : list move) : list move :=
  if 1 <=? numMoves then lastMoves numMoves game else game.

(** The claim on the moves [drawGame] draws, as the specification states it:
    a blank board when the game is empty or one is asked for, then the
    markers of the moves of [window], and a normal end. *)
Definition draws_window (game : list move) (numMoves size : Z) (board_colour : string)
    (xy_colour : gmap string string) (margin : Z) (newBoard : bool) : Prop :=
  drawGame game numMoves size board_colour xy_colour margin newBoard
  = MkDraw (blank size board_colour margin ((Py.len game <? 1) || newBoard)
            ++ markers size xy_colour margin (window numMoves game)) (Ok tt).

(** The claim on a [numMoves] above the length of the game: [numMoves]
    markers, the last [numMoves - len(game)] moves and then the whole game,
    and a normal end. *)
Definition draws_wrapped (game : list move) (numMoves size : Z) (board_colour : string)
    (xy_colour : gmap string string) (margin : Z) (newBoard : bool) : Prop :=
  let drawn := lastMoves (numMoves - Py.len game) game ++ game in
  Py.len drawn = numMoves
  /\ drawGame game numMoves size board_colour xy_colour margin newBoard
     = MkDraw (blank size board_colour margin ((Py.len game <? 1) || newBoard)
               ++ markers size xy_colour margin drawn) (Ok tt).

(** The cells of a board in row-major order, each with its row and column,
    the rows counted from [r]. *)
Fixpoint row_cells (r c : Z) (row : list string) : list move :=
  match row with
  | [] => []
  | v :: row' => (r, c, v) :: row_cells r (c + 1) row'
  end.

Fixpoint board_cells (r : Z) (board : list (list string)) : list move :=
  match board with
  | [] => []
  | row :: board' => row_cells r 0 row ++ board_cells (r + 1) board'
  end.

Definition cells (board : list (list string)) : list move := board_cells 0 board.

(** A board with as many cells in every row as it has rows. *)
Definition square (board : list (list string)) : Prop :=
  Forall (fun row => length row = length board) board.

(** The board of nine empty cells, and its positions in row-major order. *)
Definition empty_board : list (list string) :=
  [[""; ""; ""]; [""; ""; ""]; [""; ""; ""]].

Definition positions : list (Z * Z) :=
  [(0, 0); (0, 1); (0, 2); (1, 0); (1, 1); (1, 2); (2, 0); (2, 1); (2, 2)].

(** The commands of [drawBoard] on the board of nine empty cells: a blank
    board when [b] holds, then the marker of the empty team at every
    position in row-major order, in the colour [colour]. *)
Definition empty_board_trace (b : bool) (size : Z) (board_colour : string) (margin : Z)
    (colour : string) : list cmd :=
  blank size board_colour margin b
  ++ concat (map (fun pos => trace (drawMarker "" pos size colour margin)) positions).

(** The claim that a value missing from the colour mapping makes the call
    fail with [KeyError], for a game and for a board. *)
Definition game_KeyError (game : list move) (numMoves size : Z) (board_colour : string)
    (xy_colour : gmap string string) (margin : Z) (newBoard : bool) : Prop :=
  (exists m, m ∈ game /\ xy_colour !! m.2 = None) ->
  exists t k, drawGame game numMoves size board_colour xy_colour margin newBoard
              = MkDraw t (Raised (KeyError k)).

Definition board_KeyError (board : list (list string)) (size : Z) (board_colour : string)
    (xy_colour : gmap string string) (margin : Z) (newBoard : bool) : Prop :=
  (exists row v, row ∈ board /\ v ∈ row /\ xy_colour !! v = None) ->
  exists t k, drawBoard board size board_colour xy_colour margin newBoard
              = MkDraw t (Raised (KeyError k)).

(** ** Vocabulary of the further properties *)

(** The points a trace sends the pen to, in order. *)
Definition targets (t : list cmd) : list (Z * Z) :=
  omap (fun c => match c with Goto x y => Some (x, y) | _ => None end) t.

(** The number of unit steps a trace moves the pen forward. *)
Definition is_forward (c : cmd) : bool :=
  match c with Forward _ => true | _ => false end.

Definition forward_steps (t : list cmd) : nat := length (filter is_forward t).

(** The square with opposite corners [(x0, y0)] and [(x0 + w, y0 + w)]. *)
Definition within (x0 y0 w : Z) (p : Z * Z) : Prop :=
  x0 <= p.1 <= x0 + w /\ y0 <= p.2 <= y0 + w.

(** A command moved by [(dx, dy)] on the canvas. *)
Definition shift (dx dy : Z) (c : cmd) : cmd :=
  match c with
  | Goto x y => Goto (x + dx) (y + dy)
  | _ => c
  end.

(** The inset of the markers, [math.floor(cellSize * 0.2)], and the number
    of steps of the O, [math.floor(1.4 * cellSize) - (o_offset_horizontal * 2)],
    as [drawMarker] computes them. *)
Definition marker_offset (cellSize : Z) : Z :=
  Py.floor (Py.fmul (Py.of_int cellSize) Py.lit_0_2).

Definition o_steps (cellSize : Z) : Z :=
  Py.floor (Py.fmul Py.lit_1_4 (Py.of_int cellSize)) - marker_offset cellSize * 2.

(** The turn before each unit step of the O, [360 / (steps * step_len)]. *)
Definition o_turn (cellSize : Z) : Py.float :=
  Py.truediv 360 (o_steps cellSize * 2).

(** The largest cell size for which the float arithmetic of the markers is
    checked case by case: boards up to 12290 pixels. *)
Definition checked_cellSize : Z := 4096.

Definition offsets_checked (c : Z) : bool :=
  (marker_offset c =? c / 5) && (c - 1 <=? o_steps c) && (o_steps c <=? c + 1).

Definition half_checked (c : Z) : bool := half c =? c / 2.

(** ** The embedding at work *)

Example lower_mixed : Py.lower "Xo-O!" = "xo-o!".
Proof. reflexivity. Qed.

Example range_across_zero : Py.range (-2) 1 = [-2; -1; 0].
Proof. reflexivity. Qed.

Example range_backwards : Py.range 3 1 = [].
Proof. reflexivity. Qed.

Example getitem_last : getitem [10; 20; 30] (-1) = ret 30.
Proof. reflexivity. Qed.

Example getitem_past_end : getitem [10; 20; 30] 3 = raise IndexError.
Proof. reflexivity. Qed.

Example getitem_before_start : getitem [10; 20; 30] (-4) = raise IndexError.
Proof. reflexivity. Qed.

(** [math.floor(60 * 0.2)] is 12 and [math.floor(1.4 * 60)] is 84, but
    [1.4 * 45] is 62.99999999999999 and its floor is 62. *)
Example floor_fifth_of_60 : Py.floor (Py.fmul (Py.of_int 60) Py.lit_0_2) = 12.
Proof. reflexivity. Qed.

Example floor_1_4_times_60 : Py.floor (Py.fmul Py.lit_1_4 (Py.of_int 60)) = 84.
Proof. reflexivity. Qed.

Example floor_1_4_times_45 : Py.floor (Py.fmul Py.lit_1_4 (Py.of_int 45)) = 62.
Proof. reflexivity. Qed.

Example floor_negative : Py.floor (Py.fmul (Py.of_int (-7)) Py.lit_0_2) = -2.
Proof. reflexivity. Qed.

Example drawMarker_X_centre :
  drawMarker "X" (1, 1) 180 "red" 30
  = MkDraw [HideTurtle; Color "red"; PenUp; Goto 102 102; PenDown; Goto 138 138;
            PenUp; Goto 138 102; PenDown; Goto 102 138] (Ok tt).
Proof. reflexivity. Qed.

(** An O on the default board: 60 steps of two turns of 3 degrees and two
    moves forward each. *)
Example drawMarker_O_corner :
  let d := drawMarker "o" (0, 2) 180 "green" 30 in
  take 7 (trace d)
  = [HideTurtle; Color "green"; PenUp; Goto 162 60; PenDown;
     TurnRight (Py.of_int 3); Forward 1]
  /\ length (trace d) = 245%nat /\ result d = Ok tt.
Proof. vm_compute. repeat split. Qed.

(** ** The monad laws used below *)

Lemma bind_Ok {A B} (t : list cmd) (a : A) (k : A -> Draw B) :
  MkDraw t (Ok a) ≫= k = MkDraw (t ++ trace (k a)) (result (k a)).
Proof. reflexivity. Qed.

Lemma bind_Raised {A B} (t : list cmd) (e : exn) (k : A -> Draw B) :
  MkDraw t (Raised e) ≫= k = MkDraw t (Raised e).
Proof. reflexivity. Qed.

Lemma ret_bind {A B} (a : A) (k : A -> Draw B) : ret a ≫= k = k a.
Proof. unfold ret. rewrite bind_Ok. by destruct (k a). Qed.

Lemma raise_bind {A B} (e : exn) (k : A -> Draw B) : raise e ≫= k = raise e.
Proof. reflexivity. Qed.

Lemma bind_assoc {A B C} (m : Draw A) (f : A -> Draw B) (g : B -> Draw C) :
  (m ≫= f) ≫= g = m ≫= (fun x => f x ≫= g).
Proof.
  destruct m as [t [a|e]]; [|reflexivity].
  rewrite !bind_Ok. destruct (f a) as [t' [b|e]]; cbn [trace result].
  - rewrite !bind_Ok. cbn [trace result]. by rewrite <- app_assoc.
  - reflexivity.
Qed.

Lemma Draw_eta {A} (m : Draw A) : m = MkDraw (trace m) (result m).
Proof. by destruct m. Qed.

(** ** [range] and indexing *)

Lemma range_nil (a b : Z) : b <= a -> Py.range a b = [].
Proof.
  intros H. unfold Py.range. replace (Z.to_nat (b - a)) with 0%nat by lia. reflexivity.
Qed.

Lemma range_cons (a b : Z) : a < b -> Py.range a b = a :: Py.range (a + 1) b.
Proof.
  intros H. unfold Py.range.
  replace (Z.to_nat (b - a)) with (S (Z.to_nat (b - (a + 1)))) by lia.
  cbn [seq map]. f_equal; [lia|].
  rewrite <- seq_shift, map_map. apply map_ext. intros k. lia.
Qed.

Lemma range_app (a b c : Z) :
  a <= b -> b <= c -> Py.range a c = Py.range a b ++ Py.range b c.
Proof.
  intros Hab Hbc. remember (Z.to_nat (b - a)) as n eqn:En.
  revert a Hab En. induction n as [|n IH]; intros a Hab En.
  - assert (a = b) as -> by lia. by rewrite (range_nil b b) by lia.
  - rewrite (range_cons a c), (range_cons a b) by lia.
    cbn [app]. f_equal. apply IH; lia.
Qed.

Section Indexing.
Context {A : Type}.
Implicit Types (l : list A) (i : Z).

(** A non-negative index in range. *)
Lemma getitem_nonneg l i x :
  0 <= i -> l !! Z.to_nat i = Some x -> getitem l i = ret x.
Proof.
  intros Hi Hx. unfold getitem, Py.len. apply lookup_lt_Some in Hx as Hlt.
  destruct (Z.ltb_spec i 0); [lia|].
  destruct (Z.leb_spec 0 i); [|lia].
  destruct (Z.ltb_spec i (Z.of_nat (length l))); [|lia].
  cbn. by rewrite Hx.
Qed.

(** A negative index counts from the end. *)
Lemma getitem_neg l i x :
  i < 0 -> 0 <= i + Py.len l -> l !! Z.to_nat (i + Py.len l) = Some x ->
  getitem l i = ret x.
Proof.
  intros Hi Hlo Hx. unfold getitem.
  destruct (Z.ltb_spec i 0); [|lia].
  destruct (Z.leb_spec 0 (i + Py.len l)); [|lia].
  destruct (Z.ltb_spec (i + Py.len l) (Py.len l)); [|lia].
  cbn. by rewrite Hx.
Qed.

(** An index out of range, on either side. *)
Lemma getitem_out l i :
  i < - Py.len l \/ Py.len l <= i -> getitem l i = raise IndexError.
Proof.
  intros H. unfold getitem. unfold Py.len in *.
  destruct (Z.ltb_spec i 0).
  - destruct (Z.leb_spec 0 (i + Z.of_nat (length l))); [lia|]. reflexivity.
  - destruct (Z.ltb_spec i (Z.of_nat (length l))); [lia|].
    by rewrite andb_false_r.
Qed.
End Indexing.

(** ** Loops *)

Section Loops.
Context {A : Type}.
Implicit Types (body : A -> Draw unit).

Lemma for_app xs ys body :
  for_ (xs ++ ys) body = (for_ xs body ;; for_ ys body).
Proof.
  induction xs as [|x xs IH]; cbn [app for_].
  - by rewrite ret_bind.
  - by rewrite bind_assoc, IH.
Qed.

(** A loop whose first round raises stops there. *)
Lemma for_raise x xs body e :
  body x = raise e -> for_ (x :: xs) body = raise e.
Proof. intros E. cbn [for_]. by rewrite E. Qed.

(** A loop over a range that reads [l] by index is a loop over [l]. *)
Lemma for_range_lookup (l : list A) (a : Z) (body : Z -> Draw unit) f :
  (forall (k : nat) x, l !! k = Some x -> body (a + Z.of_nat k) = f x) ->
  for_ (Py.range a (a + Py.len l)) body = for_ l f.
Proof.
  revert a. induction l as [|x l IH]; intros a H.
  - by rewrite range_nil by (unfold Py.len; cbn; lia).
  - rewrite range_cons by (unfold Py.len; cbn; lia).
    cbn [for_]. rewrite <- (H 0%nat x eq_refl), Z.add_0_r.
    replace (a + Py.len (x :: l)) with ((a + 1) + Py.len l)
      by (unfold Py.len; cbn [length]; lia).
    rewrite (IH (a + 1)); [done|]. intros k y Hy.
    replace (a + 1 + Z.of_nat k) with (a + Z.of_nat (S k)) by lia. by apply H.
Qed.
End Loops.

(** ** The float arithmetic of the markers *)

Lemma In_range (a b c : Z) : a <= c < b -> In c (Py.range a b).
Proof.
  intros H. unfold Py.range. apply in_map_iff.
  exists (Z.to_nat (c - a)). split; [lia|]. apply in_seq. lia.
Qed.

Lemma length_range (a b : Z) : length (Py.range a b) = Z.to_nat (b - a).
Proof. unfold Py.range. by rewrite length_map, length_seq. Qed.

Lemma offsets_checked_all :
  forallb offsets_checked (Py.range 0 (checked_cellSize + 1)) = true.
Proof. vm_compute. reflexivity. Qed.

(** Up to [checked_cellSize] the inset is a fifth of the cell, rounded down,
    and the O has as many steps as the cell has pixels, give or take one. *)
Lemma marker_offsets (c : Z) :
  0 <= c <= checked_cellSize ->
  marker_offset c = c / 5 /\ c - 1 <= o_steps c <= c + 1.
Proof.
  intros H.
  pose proof (proj1 (forallb_forall _ _) offsets_checked_all c) as Hc.
  unfold offsets_checked in Hc.
  rewrite !andb_true_iff, Z.eqb_eq, !Z.leb_le in Hc.
  destruct Hc as [[Hd Hlo] Hhi]; [apply In_range; lia|]. done.
Qed.

Lemma cellSize_checked (size : Z) :
  0 <= size <= 3 * checked_cellSize + 2 -> 0 <= size / 3 <= checked_cellSize.
Proof.
  intros H. unfold checked_cellSize in *.
  pose proof (Z.div_mod size 3 ltac:(lia)). pose proof (Z.mod_pos_bound size 3 ltac:(lia)).
  lia.
Qed.

Lemma sizes_checked_all :
  forallb size_checked (Py.range 0 (checked_size + 1)) = true.
Proof. vm_compute. reflexivity. Qed.

Lemma halves_checked_all :
  forallb half_checked (Py.range 0 (checked_cellSize + 1)) = true.
Proof. vm_compute. reflexivity. Qed.

(** Up to [checked_size] the cell size is the integer quotient by 3, and up
    to [checked_cellSize] the half of a cell the integer quotient by 2. *)
Lemma cell_size_exact (size : Z) :
  0 <= size <= checked_size -> cell_size size = size / 3.
Proof.
  intros H.
  pose proof (proj1 (forallb_forall _ _) sizes_checked_all size) as Hc.
  unfold size_checked in Hc. rewrite Z.eqb_eq in Hc.
  apply Hc, In_range. lia.
Qed.

Lemma half_exact (c : Z) :
  0 <= c <= checked_cellSize -> half c = c / 2.
Proof.
  intros H.
  pose proof (proj1 (forallb_forall _ _) halves_checked_all c) as Hc.
  unfold half_checked in Hc. rewrite Z.eqb_eq in Hc.
  apply Hc, In_range. lia.
Qed.

Lemma in_double_range_checked (size : Z) :
  0 <= size <= checked_size -> in_double_range size.
Proof.
  unfold in_double_range, checked_size. intros H.
  assert (2 ^ 14 <= 2 ^ 1024) by (apply Z.pow_le_mono_r; lia). lia.
Qed.

(** ** The blank board *)

Lemma drawNewBoard_eq (size : Z) (colour : string) (margin : Z) :
  drawNewBoard size colour margin
  = MkDraw (grid_trace size margin (cell_size size) colour) (Ok tt).
Proof.
  unfold drawNewBoard, cell_size. generalize (Py.floor (Py.truediv size 3)). intros c.
  cbv [initializeTurtle hideturtle color penup pendown goto emit
       mbind Draw_bind bind trace result app fst snd grid_trace].
  repeat (f_equal; try lia).
Qed.

(** C2, as amended.  For a size [S] within the range of a double, a blank
    board is exactly four strokes with [cellSize = math.floor(S / 3)] as the
    function computes it, the floor of the quotient rounded to a double:
    vertical lines at [x = M + cellSize] and [x = M + 2*cellSize] from
    [y = M] to [y = M + 3*cellSize], and horizontal lines at
    [y = M + cellSize] and [y = M + 2*cellSize] from [x = M] to
    [x = M + 3*cellSize]; the call ends normally.  For sizes from 0 to 12290
    this cell size is the integer quotient [floor(S/3)]. *)
Theorem drawNewBoard_grid (S M : Z) (colour : string) (down : bool)
    (pos : option (Z * Z)) :
  in_double_range S ->
  let cellSize := cell_size S in
  result (drawNewBoard S colour M) = Ok tt
  /\ trace (drawNewBoard S colour M) = grid_trace S M cellSize colour
  /\ strokes down pos (trace (drawNewBoard S colour M)) = Some (grid_lines M cellSize)
  /\ (0 <= S <= checked_size -> cellSize = S / 3).
Proof.
  intros _ cellSize. rewrite drawNewBoard_eq. cbn [trace result].
  split; [reflexivity|]. split; [reflexivity|]. split; [reflexivity|].
  apply cell_size_exact.
Qed.

Lemma drawNewBoard_grid_witness :
  let cellSize := cell_size 180 in
  result (drawNewBoard 180 "white" 30) = Ok tt
  /\ trace (drawNewBoard 180 "white" 30) = grid_trace 180 30 cellSize "white"
  /\ strokes false None (trace (drawNewBoard 180 "white" 30))
     = Some (grid_lines 30 cellSize)
  /\ (0 <= 180 <= checked_size -> cellSize = 180 / 3).
Proof.
  apply (drawNewBoard_grid 180 30 "white" false None).
  unfold in_double_range. vm_compute. reflexivity.
Defined.

(** C2 as stated, for every size and with the integer quotient, fails: at
    [S = 3 * 2^52 + 2] the quotient [S / 3] rounds up to the double
    [2^52 + 1], one more than [floor(S/3)], and the grid is drawn with that
    cell size. *)
Lemma drawNewBoard_grid_counterexample :
  cell_size (3 * 2 ^ 52 + 2) = 2 ^ 52 + 1
  /\ (3 * 2 ^ 52 + 2) / 3 = 2 ^ 52
  /\ ~ grid_as_stated (3 * 2 ^ 52 + 2) 30 "white".
Proof.
  split; [reflexivity|]. split; [reflexivity|].
  intros H. vm_compute in H. discriminate H.
Qed.

(** ** The win line *)

(** C3, as amended.  For a size within the range of a double, [drawWin]
    draws one straight stroke, from the centre of the start cell to the
    centre of the end cell, the centre of cell [(r, c)] being
    [(M + cellSize*c + math.floor(cellSize / 2),
      M + cellSize*r + math.floor(cellSize / 2))]
    with [cellSize = math.floor(S / 3)], both floors of quotients rounded
    to a double; with the defaults the stroke runs from [(60, 60)] to
    [(180, 180)].  For sizes from 0 to 12290 the two floors are the integer
    quotients [floor(S/3)] and [floor(cellSize/2)]. *)
Theorem drawWin_line (startPos endPos : Z * Z) (S M : Z) (colour : string)
    (down : bool) (pos : option (Z * Z)) :
  in_double_range S ->
  let a := cell_centre S M startPos in
  let b := cell_centre S M endPos in
  drawWin startPos endPos S colour M
  = MkDraw [HideTurtle; Color colour; PenUp; Goto a.1 a.2; PenDown; Goto b.1 b.2] (Ok tt)
  /\ strokes down pos (trace (drawWin startPos endPos S colour M)) = Some [(a, b)]
  /\ strokes down pos (trace (drawWin (0, 0) (2, 2) 180 colour 30))
     = Some [((30 + 30, 30 + 30), (30 + 150, 30 + 150))]
  /\ (0 <= S <= checked_size ->
      a = exact_centre S M startPos /\ b = exact_centre S M endPos).
Proof.
  intros _ a b. split; [reflexivity|]. split; [|split; [reflexivity|]].
  - subst a b. destruct startPos as [r1 c1], endPos as [r2 c2]. reflexivity.
  - intros HS. subst a b. unfold cell_centre, exact_centre. cbv zeta.
    rewrite (cell_size_exact S HS).
    rewrite (half_exact (S / 3)) by (apply cellSize_checked; exact HS).
    done.
Qed.

Lemma drawWin_line_witness :
  let a := cell_centre 180 30 (0, 0) in
  let b := cell_centre 180 30 (2, 2) in
  drawWin (0, 0) (2, 2) 180 "yellow" 30
  = MkDraw [HideTurtle; Color "yellow"; PenUp; Goto a.1 a.2; PenDown; Goto b.1 b.2] (Ok tt)
  /\ strokes false None (trace (drawWin (0, 0) (2, 2) 180 "yellow" 30)) = Some [(a, b)]
  /\ strokes false None (trace (drawWin (0, 0) (2, 2) 180 "yellow" 30))
     = Some [((30 + 30, 30 + 30), (30 + 150, 30 + 150))]
  /\ (0 <= 180 <= checked_size ->
      a = exact_centre 180 30 (0, 0) /\ b = exact_centre 180 30 (2, 2)).
Proof.
  apply (drawWin_line (0, 0) (2, 2) 180 30 "yellow" false None).
  unfold in_double_range. vm_compute. reflexivity.
Defined.

(** C3 as stated, for every size and with the integer quotients, fails: at
    [S = 3 * 2^52 + 2] the cell size the function computes is [2^52 + 1],
    and the line to the centre of cell [(2, 2)] ends two cells of that size
    away, not two of size [floor(S/3)]. *)
Lemma drawWin_line_counterexample :
  cell_centre (3 * 2 ^ 52 + 2) 30 (2, 2) <> exact_centre (3 * 2 ^ 52 + 2) 30 (2, 2)
  /\ ~ win_line_as_stated (0, 0) (2, 2) (3 * 2 ^ 52 + 2) 30 "yellow".
Proof.
  split; intros H; vm_compute in H; discriminate H.
Qed.

(** ** Markers *)

Lemma lower_ascii_idem (a : ascii) :
  Py.lower_ascii (Py.lower_ascii a) = Py.lower_ascii a.
Proof. destruct a as [[] [] [] [] [] [] [] []]; reflexivity. Qed.

Lemma lower_idem (s : string) : Py.lower (Py.lower s) = Py.lower s.
Proof.
  induction s as [|a s IH]; cbn [Py.lower]; [reflexivity|].
  by rewrite lower_ascii_idem, IH.
Qed.

(** C7. The team of a marker is matched without regard to case: a team and
    its lower-case form draw the same, and so do ["x"] and ["X"]. *)
Theorem drawMarker_case_insensitive (team : string) (pos : Z * Z) (size : Z)
    (colour : string) (margin : Z) :
  drawMarker team pos size colour margin
  = drawMarker (Py.lower team) pos size colour margin
  /\ drawMarker "x" pos size colour margin = drawMarker "X" pos size colour margin.
Proof.
  split.
  - unfold drawMarker. by rewrite lower_idem.
  - reflexivity.
Qed.

(** C9. A team that is neither an X nor an O in any case, the empty string
    included, draws nothing: the marker hides the cursor and sets the pen
    colour, and neither moves the pen nor draws. *)
Theorem drawMarker_other_team (team : string) (pos : Z * Z) (size : Z)
    (colour : string) (margin : Z) (down : bool) (at_ : option (Z * Z)) :
  Py.lower team <> "x" -> Py.lower team <> "o" ->
  drawMarker team pos size colour margin = MkDraw [HideTurtle; Color colour] (Ok tt)
  /\ strokes down at_ (trace (drawMarker team pos size colour margin)) = Some [].
Proof.
  intros Hx Ho.
  assert (drawMarker team pos size colour margin
          = MkDraw [HideTurtle; Color colour] (Ok tt)) as E.
  { unfold drawMarker. cbv zeta.
    apply String.eqb_neq in Hx, Ho. rewrite Hx, Ho. reflexivity. }
  rewrite E. split; reflexivity.
Qed.

Lemma drawMarker_other_team_witness :
  drawMarker "" (1, 1) 180 "white" 30 = MkDraw [HideTurtle; Color "white"] (Ok tt)
  /\ strokes true None (trace (drawMarker "" (1, 1) 180 "white" 30)) = Some [].
Proof. apply drawMarker_other_team; discriminate. Defined.


(** ** Results of computations that cannot raise *)

Lemma result_bind {A B} (m : Draw A) (a : A) (k : A -> Draw B) :
  result m = Ok a -> result (m ≫= k) = result (k a).
Proof. destruct m as [t r]. cbn [result]. intros ->. reflexivity. Qed.

Lemma for_result_Ok {A} (xs : list A) (body : A -> Draw unit) :
  (forall x, result (body x) = Ok tt) -> result (for_ xs body) = Ok tt.
Proof.
  intros H. induction xs as [|x xs IH]; [reflexivity|].
  cbn [for_]. by rewrite (result_bind _ tt) by apply H.
Qed.

Lemma seq_result_Ok (m k : Draw unit) :
  result m = Ok tt -> result k = Ok tt -> result (m ;; k) = Ok tt.
Proof. intros Hm Hk. by rewrite (result_bind m tt). Qed.

(** [drawMarker] itself never raises. *)
Lemma drawMarker_result (team : string) (pos : Z * Z) (size : Z) (colour : string)
    (margin : Z) :
  result (drawMarker team pos size colour margin) = Ok tt.
Proof.
  unfold drawMarker. cbv zeta.
  do 2 (apply seq_result_Ok; [reflexivity|]).
  destruct (String.eqb _ "o"); [|destruct (String.eqb _ "x")].
  - do 3 (apply seq_result_Ok; [reflexivity|]).
    apply for_result_Ok. intros _. apply for_result_Ok. intros _. reflexivity.
  - reflexivity.
  - reflexivity.
Qed.

Lemma drawMarker_eta (team : string) (pos : Z * Z) (size : Z) (colour : string)
    (margin : Z) :
  drawMarker team pos size colour margin
  = MkDraw (trace (drawMarker team pos size colour margin)) (Ok tt).
Proof. rewrite <- (drawMarker_result team pos size colour margin). apply Draw_eta. Qed.

(** ** One round of the loops *)

Section Rounds.
Variables (size margin : Z) (xy_colour : gmap string string).

Lemma drawMove_colour (m : move) (colour : string) :
  xy_colour !! m.2 = Some colour ->
  drawMove size xy_colour margin m
  = drawMarker m.2 (m.1.1, m.1.2) size colour margin.
Proof. intros H. unfold drawMove, lookup_key. rewrite H. by rewrite ret_bind. Qed.

Lemma drawMove_ok (m : move) :
  has_colour xy_colour m ->
  drawMove size xy_colour margin m
  = MkDraw (markerTrace size xy_colour margin m) (Ok tt).
Proof.
  intros [colour H]. rewrite (drawMove_colour m colour H).
  unfold markerTrace. rewrite H. apply drawMarker_eta.
Qed.

Lemma drawMove_no_colour (m : move) :
  xy_colour !! m.2 = None ->
  drawMove size xy_colour margin m = raise (KeyError m.2).
Proof. intros H. unfold drawMove, lookup_key. rewrite H. by rewrite raise_bind. Qed.

(** Moves whose teams all have a colour: every marker is drawn. *)
Lemma for_moves_ok (ms : list move) :
  Forall (has_colour xy_colour) ms ->
  for_ ms (drawMove size xy_colour margin)
  = MkDraw (markers size xy_colour margin ms) (Ok tt).
Proof.
  induction 1 as [|m ms Hm _ IH]; [reflexivity|].
  cbn [for_]. rewrite (drawMove_ok m Hm), IH, bind_Ok. reflexivity.
Qed.

(** The first team without a colour ends the loop with [KeyError]: the
    markers before it are drawn, and nothing after them. *)
Lemma for_moves_KeyError (pre post : list move) (bad : move) :
  Forall (has_colour xy_colour) pre -> xy_colour !! bad.2 = None ->
  for_ (pre ++ bad :: post) (drawMove size xy_colour margin)
  = MkDraw (markers size xy_colour margin pre) (Raised (KeyError bad.2)).
Proof.
  intros Hpre Hbad. rewrite for_app, (for_moves_ok pre Hpre), bind_Ok.
  rewrite (for_raise bad post _ (KeyError bad.2)) by by apply drawMove_no_colour.
  cbn [trace result raise]. by rewrite app_nil_r.
Qed.
End Rounds.

(** The optional blank board in front of a call. *)
Lemma blank_bind (size : Z) (colour : string) (margin : Z) (b : bool) (k : Draw unit) :
  ((if b then drawNewBoard size colour margin else ret tt) ;; k)
  = MkDraw (blank size colour margin b ++ trace k) (result k).
Proof.
  destruct b; cbn [blank].
  - rewrite drawNewBoard_eq. reflexivity.
  - rewrite ret_bind. apply Draw_eta.
Qed.

(** ** The loop of [drawGame] *)

Section GameLoop.
Context {A : Type}.
Implicit Types (l : list A) (body : Z -> Draw unit) (f : A -> Draw unit).

(** From a first index inside the list to its end: the items from there on. *)
Lemma for_from l (a : Z) body f :
  0 <= a <= Py.len l ->
  (forall i x, getitem l i = ret x -> body i = f x) ->
  for_ (Py.range a (Py.len l)) body = for_ (drop (Z.to_nat a) l) f.
Proof.
  intros Ha H.
  assert (Py.len l = a + Py.len (drop (Z.to_nat a) l)) as E
    by (unfold Py.len in *; rewrite length_drop; lia).
  rewrite E at 1. apply for_range_lookup. intros k x Hk.
  apply H, getitem_nonneg; [lia|].
  rewrite lookup_drop in Hk. by replace (Z.to_nat (a + Z.of_nat k)) with (Z.to_nat a + k)%nat by lia.
Qed.

(** From a negative first index up to 0: the indices wrap around, and the
    loop runs over the last [j] items. *)
Lemma for_wrapped l (j : Z) body f :
  0 <= j <= Py.len l ->
  (forall i x, getitem l i = ret x -> body i = f x) ->
  for_ (Py.range (- j) 0) body = for_ (drop (length l - Z.to_nat j) l) f.
Proof.
  intros Hj H.
  assert (0 = - j + Py.len (drop (length l - Z.to_nat j) l)) as E
    by (unfold Py.len in *; rewrite length_drop; lia).
  rewrite E at 1. apply for_range_lookup. intros k x Hk.
  apply lookup_lt_Some in Hk as Hlt. rewrite length_drop in Hlt.
  rewrite lookup_drop in Hk. unfold Py.len in *.
  apply H, getitem_neg; unfold Py.len; [lia|lia|].
  by replace (Z.to_nat (- j + Z.of_nat k + Z.of_nat (length l)))
    with (length l - Z.to_nat j + k)%nat by lia.
Qed.
End GameLoop.

Section Game.
Variables (game : list move) (size : Z) (board_colour : string).
Variables (xy_colour : gmap string string) (margin : Z) (newBoard : bool).

(** A round of the loop at an index that holds a move. *)
Lemma drawGame_round (i : Z) (m : move) :
  getitem game i = ret m ->
  (row ← (m ← getitem game i ; ret m.1.1) ;
   col ← (m ← getitem game i ; ret m.1.2) ;
   team ← (m ← getitem game i ; ret m.2) ;
   colour ← lookup_key xy_colour team ;
   drawMarker team (row, col) size colour margin)
  = drawMove size xy_colour margin m.
Proof. intros ->. by rewrite !ret_bind. Qed.

(** A round of the loop at an index out of range. *)
Lemma drawGame_round_out (i : Z) :
  i < - Py.len game \/ Py.len game <= i ->
  (row ← (m ← getitem game i ; ret m.1.1) ;
   col ← (m ← getitem game i ; ret m.1.2) ;
   team ← (m ← getitem game i ; ret m.2) ;
   colour ← lookup_key xy_colour team ;
   drawMarker team (row, col) size colour margin)
  = raise IndexError.
Proof. intros H. by rewrite (getitem_out game i H), !raise_bind. Qed.

(** With [numMoves] no more than the length of the game, the loop runs
    over the moves of [window]. *)
Lemma drawGame_loop (numMoves : Z) :
  numMoves <= Py.len game ->
  drawGame game numMoves size board_colour xy_colour margin newBoard
  = MkDraw (blank size board_colour margin ((Py.len game <? 1) || newBoard)
            ++ trace (for_ (window numMoves game) (drawMove size xy_colour margin)))
           (result (for_ (window numMoves game) (drawMove size xy_colour margin))).
Proof.
  intros Hn. unfold drawGame. cbv zeta. rewrite blank_bind. unfold window, lastMoves.
  destruct (Z.ltb_spec numMoves 1) as [Hlt|Hge].
  - destruct (Z.leb_spec 1 numMoves); [lia|].
    rewrite (for_from game 0 _ (drawMove size xy_colour margin));
      [reflexivity|unfold Py.len; lia|].
    intros i m Hi. by apply drawGame_round.
  - destruct (Z.leb_spec 1 numMoves); [|lia].
    rewrite (for_from game (Py.len game - numMoves) _ (drawMove size xy_colour margin)).
    + unfold Py.len.
      by replace (Z.to_nat (Z.of_nat (length game) - numMoves))
        with (length game - Z.to_nat numMoves)%nat by lia.
    + lia.
    + intros i m Hi. by apply drawGame_round.
Qed.
End Game.

Section GameBeyond.
Variables (game : list move) (size : Z) (board_colour : string).
Variables (xy_colour : gmap string string) (margin : Z) (newBoard : bool).

(** With [numMoves] above the length of the game and up to twice the
    length, the first index is negative and wraps around: the loop runs
    over the last [numMoves - len(game)] moves, then over the game. *)
Lemma drawGame_wrapped_loop (numMoves : Z) :
  Py.len game < numMoves <= 2 * Py.len game ->
  let drawn := lastMoves (numMoves - Py.len game) game ++ game in
  drawGame game numMoves size board_colour xy_colour margin newBoard
  = MkDraw (blank size board_colour margin ((Py.len game <? 1) || newBoard)
            ++ trace (for_ drawn (drawMove size xy_colour margin)))
           (result (for_ drawn (drawMove size xy_colour margin))).
Proof.
  intros Hn drawn. subst drawn. unfold drawGame. cbv zeta. rewrite blank_bind.
  assert (0 <= Py.len game) by (unfold Py.len; lia).
  destruct (Z.ltb_spec numMoves 1) as [Hlt|Hge]; [lia|].
  rewrite (range_app (Py.len game - numMoves) 0 (Py.len game)) by lia.
  rewrite !for_app.
  replace (Py.len game - numMoves) with (- (numMoves - Py.len game)) by lia.
  rewrite (for_wrapped game (numMoves - Py.len game) _ (drawMove size xy_colour margin));
    [|lia|by intros; apply drawGame_round].
  rewrite (for_from game 0 _ (drawMove size xy_colour margin));
    [|lia|by intros; apply drawGame_round].
  reflexivity.
Qed.

(** With [numMoves] above twice the length of the game the first index is
    out of range: after the optional blank board the call raises
    [IndexError], and no marker is drawn. *)
Lemma drawGame_IndexError (numMoves : Z) :
  2 * Py.len game < numMoves ->
  drawGame game numMoves size board_colour xy_colour margin newBoard
  = MkDraw (blank size board_colour margin ((Py.len game <? 1) || newBoard))
           (Raised IndexError).
Proof.
  intros Hn. unfold drawGame. cbv zeta. rewrite blank_bind.
  assert (0 <= Py.len game) by (unfold Py.len; lia).
  destruct (Z.ltb_spec numMoves 1) as [Hlt|Hge]; [lia|].
  rewrite (range_cons (Py.len game - numMoves)) by lia.
  rewrite (for_raise _ _ _ IndexError) by (apply drawGame_round_out; lia).
  cbn [trace result raise]. by rewrite app_nil_r.
Qed.
End GameBeyond.

(** ** The moves [drawGame] draws *)

(** C1, as amended.  When the teams of the selected moves have a colour and
    [numMoves] is no more than the length of the game, [drawGame] draws, after
    the optional blank board, the markers of exactly the last [numMoves]
    moves in their order when [numMoves >= 1], and of every move in order
    when [numMoves < 1], and ends normally. *)
Theorem drawGame_window (game : list move) (numMoves size : Z) (board_colour : string)
    (xy_colour : gmap string string) (margin : Z) (newBoard : bool) :
  numMoves <= Py.len game ->
  Forall (has_colour xy_colour) (window numMoves game) ->
  draws_window game numMoves size board_colour xy_colour margin newBoard.
Proof.
  intros Hn Hc. unfold draws_window.
  rewrite drawGame_loop by done. by rewrite for_moves_ok.
Qed.

(** A game of five moves: with [numMoves = -1] all five are drawn in order,
    with [numMoves = 2] the moves at indices 3 and 4, in that order. *)
Lemma drawGame_window_witness :
  let game := [(0, 0, "X"); (1, 1, "O"); (0, 1, "X"); (2, 2, "O"); (0, 2, "X")] in
  (window (-1) game = game
   /\ draws_window game (-1) 180 "white" default_xy_colour 30 false)
  /\ (window 2 game = [(2, 2, "O"); (0, 2, "X")]
      /\ draws_window game 2 180 "white" default_xy_colour 30 false).
Proof.
  intros game. split; (split; [reflexivity|]).
  - apply (drawGame_window game (-1) 180 "white" default_xy_colour 30 false).
    + vm_compute. discriminate.
    + repeat (constructor; [by eexists|]). constructor.
  - apply (drawGame_window game 2 180 "white" default_xy_colour 30 false).
    + vm_compute. discriminate.
    + repeat (constructor; [by eexists|]). constructor.
Defined.

(** C1 as stated fails on both sides of the amendment: a [numMoves] above
    the length of the game draws the only move twice, and a team without a
    colour, here the lower-case ["x"] that [drawMarker] accepts but the
    default mapping lacks, ends the call with [KeyError] before its marker. *)
Lemma drawGame_window_counterexample :
  ~ draws_window [(0, 0, "X")] 2 180 "white" default_xy_colour 30 false
  /\ ~ draws_window [(0, 0, "x")] 1 180 "white" default_xy_colour 30 false.
Proof.
  split; intros H; vm_compute in H; discriminate H.
Qed.

(** C5.  On the empty game [drawGame] draws one blank board and no marker.
    It ends normally only when [numMoves < 1]: from 1 on the first index is
    [-numMoves], the range up to 0 is not empty, and reading the empty list
    raises [IndexError]. *)
Theorem drawGame_empty_game (numMoves size : Z) (board_colour : string)
    (xy_colour : gmap string string) (margin : Z) (newBoard : bool) :
  drawGame [] numMoves size board_colour xy_colour margin newBoard
  = MkDraw (trace (drawNewBoard size board_colour margin))
           (if numMoves <? 1 then Ok tt else Raised IndexError).
Proof.
  destruct (Z.ltb_spec numMoves 1) as [Hlt|Hge].
  - rewrite drawGame_loop by (unfold Py.len; cbn; lia).
    replace (window numMoves []) with (@nil move)
      by (unfold window, lastMoves; by destruct (1 <=? numMoves)).
    cbn [for_ ret trace result blank Py.len length Z.of_nat Z.ltb Z.compare orb].
    by rewrite app_nil_r.
  - rewrite drawGame_IndexError by (unfold Py.len; cbn; lia). reflexivity.
Qed.

(** The call with every parameter at its default. *)
Example drawGame_defaults :
  drawGame [] 1 180 "white" default_xy_colour 30 false
  = MkDraw (grid_trace 180 30 60 "white") (Raised IndexError).
Proof. reflexivity. Qed.

(** ** A [numMoves] above the length of the game *)

(** C10, as amended.  For a game of length [L] whose teams have a colour and
    [L < numMoves <= 2*L] (so the game is not empty), [drawGame] does not
    fail: the first index [L - numMoves] is negative and counts from the end,
    and the call draws [numMoves] markers, first the last [numMoves - L]
    moves in order, then the whole game, so those moves are drawn twice. *)
Theorem drawGame_wrapped (game : list move) (numMoves size : Z) (board_colour : string)
    (xy_colour : gmap string string) (margin : Z) (newBoard : bool) :
  Py.len game < numMoves <= 2 * Py.len game ->
  Forall (has_colour xy_colour) game ->
  draws_wrapped game numMoves size board_colour xy_colour margin newBoard.
Proof.
  intros Hn Hc. unfold draws_wrapped. cbv zeta. split.
  - unfold lastMoves, Py.len in *. rewrite length_app, length_drop. lia.
  - rewrite drawGame_wrapped_loop by done. cbv zeta.
    rewrite for_moves_ok; [reflexivity|].
    apply Forall_app. split; [|done]. by apply Forall_drop.
Qed.

Lemma drawGame_wrapped_witness :
  let game := [(0, 0, "X"); (1, 1, "O"); (0, 1, "X")] in
  lastMoves (5 - Py.len game) game ++ game
  = [(1, 1, "O"); (0, 1, "X"); (0, 0, "X"); (1, 1, "O"); (0, 1, "X")]
  /\ draws_wrapped game 5 180 "white" default_xy_colour 30 false.
Proof.
  intros game. split; [reflexivity|].
  apply (drawGame_wrapped game 5 180 "white" default_xy_colour 30 false).
  - unfold Py.len. cbn. lia.
  - repeat (constructor; [by eexists|]). constructor.
Defined.

(** C10 as stated fails above twice the length: with one move and
    [numMoves = 3] the first index is [-2], out of range, and the call
    raises [IndexError]. *)
Lemma drawGame_wrapped_counterexample :
  drawGame [(0, 0, "X")] 3 180 "white" default_xy_colour 30 false
  = MkDraw [] (Raised IndexError)
  /\ ~ draws_wrapped [(0, 0, "X")] 3 180 "white" default_xy_colour 30 false.
Proof.
  split; [reflexivity|].
  intros [H _]. vm_compute in H. discriminate H.
Qed.

(** ** The loop of [drawBoard] *)

Lemma length_row_cells (r c : Z) (row : list string) :
  length (row_cells r c row) = length row.
Proof. revert c. induction row as [|v row IH]; intros c; cbn; [done|]. by rewrite IH. Qed.

Lemma row_cells_lookup (r c : Z) (row : list string) (k : nat) (v : string) :
  row !! k = Some v -> row_cells r c row !! k = Some (r, c + Z.of_nat k, v).
Proof.
  revert c k. induction row as [|w row IH]; intros c k H; [done|].
  destruct k as [|k]; cbn [row_cells].
  - injection H as ->. cbn. by rewrite Z.add_0_r.
  - etrans; [exact (IH (c + 1) k H)|]. do 3 f_equal. lia.
Qed.

Section BoardCells.
Variable n : nat.

Lemma length_board_cells (r : Z) (board : list (list string)) :
  Forall (fun row => length row = n) board ->
  length (board_cells r board) = (length board * n)%nat.
Proof.
  intros H. revert r. induction H as [|row board Hrow _ IH]; intros r; [done|].
  cbn [board_cells length]. rewrite length_app, length_row_cells, IH. lia.
Qed.

(** The cell in row [j] and column [c] is at place [j * n + c]. *)
Lemma board_cells_lookup (r : Z) (board : list (list string)) (j c : nat)
    (row : list string) (v : string) :
  Forall (fun row => length row = n) board ->
  board !! j = Some row -> row !! c = Some v ->
  board_cells r board !! (j * n + c)%nat = Some (r + Z.of_nat j, Z.of_nat c, v).
Proof.
  intros H. revert r j. induction H as [|row0 board Hrow0 _ IH]; intros r j Hj Hc; [done|].
  cbn [board_cells]. destruct j as [|j]; cbn in Hj.
  - injection Hj as ->. apply lookup_lt_Some in Hc as Hlt.
    replace (0 * n + c)%nat with c by lia.
    rewrite lookup_app_l by (rewrite length_row_cells; lia).
    etrans; [exact (row_cells_lookup r 0 row c v Hc)|].
    do 3 f_equal; lia.
  - rewrite lookup_app_r by (rewrite length_row_cells; lia).
    rewrite length_row_cells, Hrow0.
    replace (S j * n + c - n)%nat with (j * n + c)%nat by lia.
    etrans; [exact (IH (r + 1) j Hj Hc)|]. do 3 f_equal; lia.
Qed.
End BoardCells.

Section Board.
Variables (board : list (list string)) (size : Z) (board_colour : string).
Variables (xy_colour : gmap string string) (margin : Z) (newBoard : bool).

(** A round of the loop of a square board is the round of the cell at that
    place of the row-major order. *)
Lemma drawBoard_round (k : nat) (x : move) :
  square board -> cells board !! k = Some x ->
  (let i := 0 + Z.of_nat k in
   let row := i / Py.len board in
   let col := i mod Py.len board in
   line ← getitem board row ;
   team ← getitem line col ;
   colour ← lookup_key xy_colour team ;
   drawMarker team (row, col) size colour margin)
  = drawMove size xy_colour margin x.
Proof.
  intros Hsq Hk. cbv zeta. unfold Py.len.
  apply lookup_lt_Some in Hk as Hlt. unfold cells in *.
  rewrite (length_board_cells (length board) 0 board Hsq) in Hlt.
  set (n := length board) in *.
  assert (0 < n)%nat as Hn by (destruct n; lia).
  pose proof (Nat.div_mod_eq k n) as Ek.
  pose proof (Nat.mod_upper_bound k n ltac:(lia)) as Hc.
  assert (k / n < n)%nat as Hj by (apply Nat.Div0.div_lt_upper_bound; lia).
  destruct (lookup_lt_is_Some_2 board (k / n)) as [row Hrow]; [done|].
  assert (length row = n) as Hlen
    by (eapply (proj1 (Forall_lookup _ _) Hsq); eassumption).
  destruct (lookup_lt_is_Some_2 row (k mod n)) as [v Hv]; [lia|].
  pose proof (board_cells_lookup n 0 board (k / n) (k mod n) row v Hsq Hrow Hv) as Hcell.
  replace (k / n * n + k mod n)%nat with k in Hcell by lia.
  pose proof (eq_trans (eq_sym Hk) Hcell) as Ex. injection Ex as ->.
  rewrite Z.add_0_l, <- Nat2Z.inj_div, <- Nat2Z.inj_mod.
  rewrite (getitem_nonneg board _ row) by first [lia | by rewrite Nat2Z.id].
  rewrite ret_bind.
  rewrite (getitem_nonneg row _ v) by first [lia | by rewrite Nat2Z.id].
  rewrite ret_bind. reflexivity.
Qed.
End Board.

Section BoardLoop.
Variables (board : list (list string)) (size : Z) (board_colour : string).
Variables (xy_colour : gmap string string) (margin : Z) (newBoard : bool).

(** On a square board with at least one row the loop runs over the cells
    in row-major order; a blank board comes first only when asked for. *)
Lemma drawBoard_loop :
  square board -> board <> [] ->
  drawBoard board size board_colour xy_colour margin newBoard
  = MkDraw (blank size board_colour margin newBoard
            ++ trace (for_ (cells board) (drawMove size xy_colour margin)))
           (result (for_ (cells board) (drawMove size xy_colour margin))).
Proof.
  intros Hsq Hne. unfold drawBoard.
  destruct board as [|row0 rest] eqn:Eb; [done|]. rewrite <- Eb in *.
  assert (1 <= Py.len board) as Hlen by (rewrite Eb; unfold Py.len; cbn; lia).
  destruct (Z.eqb_spec (Py.len board) 0) as [|_]; [lia|].
  cbn [orb]. rewrite blank_bind. f_equal.
  all: destruct (Z.ltb_spec (Py.len board) 1) as [|_]; [lia|].
  all: rewrite (getitem_nonneg board 0 row0) by (rewrite ?Eb; done).
  all: rewrite ret_bind.
  all: assert (length row0 = length board) as Hrow0
    by (rewrite Eb in Hsq; by inversion Hsq; subst).
  all: destruct (Z.ltb_spec (Py.len row0) 1) as [|_]; [unfold Py.len in *; lia|].
  all: rewrite ret_bind.
  all: replace (Py.len board * Py.len row0) with (0 + Py.len (cells board))
    by (unfold Py.len, cells; rewrite (length_board_cells (length board) 0 board Hsq); lia).
  all: rewrite (for_range_lookup (cells board) 0 _ (drawMove size xy_colour margin));
    [reflexivity|].
  all: intros k x Hk; by apply drawBoard_round.
Qed.
End BoardLoop.

(** ** Values without a colour *)

(** C8, as amended.  The lookup of a colour fails only for a cell or a move
    the loop reaches.  On a square board, at the first cell in row-major
    order whose value is not a key of the colour mapping, and in a game with
    [numMoves] no more than its length, at the first such move among those
    selected, the call raises [KeyError] for that value: the markers before
    it are drawn, and nothing after them. *)
Theorem draw_KeyError (size : Z) (board_colour : string)
    (xy_colour : gmap string string) (margin : Z) (newBoard : bool)
    (pre post : list move) (bad : move) :
  Forall (has_colour xy_colour) pre -> xy_colour !! bad.2 = None ->
  (forall board, square board -> cells board = pre ++ bad :: post ->
     drawBoard board size board_colour xy_colour margin newBoard
     = MkDraw (blank size board_colour margin newBoard
               ++ markers size xy_colour margin pre) (Raised (KeyError bad.2)))
  /\ (forall game numMoves, numMoves <= Py.len game ->
        window numMoves game = pre ++ bad :: post ->
        drawGame game numMoves size board_colour xy_colour margin newBoard
        = MkDraw (blank size board_colour margin ((Py.len game <? 1) || newBoard)
                  ++ markers size xy_colour margin pre) (Raised (KeyError bad.2))).
Proof.
  intros Hpre Hbad. split.
  - intros board Hsq Hcells.
    rewrite drawBoard_loop; [|done|by intros ->; destruct pre].
    by rewrite Hcells, (for_moves_KeyError _ _ _ pre post bad Hpre Hbad).
  - intros game numMoves Hn Hw.
    rewrite drawGame_loop by done.
    by rewrite Hw, (for_moves_KeyError _ _ _ pre post bad Hpre Hbad).
Qed.

Lemma draw_KeyError_witness :
  let pre := [(0, 0, "X"); (0, 1, "O"); (0, 2, ""); (1, 0, "O")] in
  let board := [["X"; "O"; ""]; ["O"; "Z"; "X"]; [""; ""; "O"]] in
  let game := pre ++ [(1, 1, "Z"); (2, 2, "O")] in
  drawBoard board 180 "white" default_xy_colour 30 false
  = MkDraw (blank 180 "white" 30 false ++ markers 180 default_xy_colour 30 pre)
           (Raised (KeyError "Z"))
  /\ drawGame game (-1) 180 "white" default_xy_colour 30 false
     = MkDraw (blank 180 "white" 30 ((Py.len game <? 1) || false)
               ++ markers 180 default_xy_colour 30 pre)
              (Raised (KeyError "Z")).
Proof.
  intros pre board game.
  assert (Forall (has_colour default_xy_colour) pre) as Hpre
    by (repeat (constructor; [by eexists|]); constructor).
  assert (default_xy_colour !! (1, 1, "Z").2 = None) as Hbad by reflexivity.
  split.
  - apply (proj1 (draw_KeyError 180 "white" default_xy_colour 30 false pre
             [(1, 2, "X"); (2, 0, ""); (2, 1, ""); (2, 2, "O")] (1, 1, "Z") Hpre Hbad)).
    + repeat constructor.
    + reflexivity.
  - apply (proj2 (draw_KeyError 180 "white" default_xy_colour 30 false pre
             [(2, 2, "O")] (1, 1, "Z") Hpre Hbad)).
    + unfold Py.len. cbn. lia.
    + reflexivity.
Defined.

(** C8 as stated fails for a game and for a board: the move of team ["Z"]
    lies outside the moves selected by [numMoves = 1], and the cell ["Z"] of
    the longer second row is never reached; both calls end normally. *)
Lemma draw_KeyError_counterexample :
  ~ game_KeyError [(0, 0, "Z"); (1, 1, "X")] 1 180 "white" default_xy_colour 30 false
  /\ ~ board_KeyError [["X"; "X"]; ["X"; "X"; "Z"]] 180 "white" default_xy_colour 30 false.
Proof.
  split.
  - intros H. destruct H as (t & k & E).
    + exists (0, 0, "Z"). split; [by left|reflexivity].
    + vm_compute in E. discriminate E.
  - intros H. destruct H as (t & k & E).
    + exists ["X"; "X"; "Z"], "Z". split; [by right; left|].
      split; [by do 2 right; left|reflexivity].
    + vm_compute in E. discriminate E.
Qed.

(** ** Boards without markers *)

(** C6.  On the board without rows [drawBoard] draws one blank board and
    returns: the commands are those of [drawNewBoard], once, and no marker
    is drawn. *)
Theorem drawBoard_no_rows (size : Z) (board_colour : string)
    (xy_colour : gmap string string) (margin : Z) (newBoard : bool) :
  drawBoard [] size board_colour xy_colour margin newBoard
  = drawNewBoard size board_colour margin
  /\ drawBoard [] size board_colour xy_colour margin newBoard
     = MkDraw (grid_trace size margin (cell_size size) board_colour) (Ok tt)
  /\ boards_drawn (trace (drawBoard [] size board_colour xy_colour margin newBoard)) = 1%nat.
Proof.
  assert (drawBoard [] size board_colour xy_colour margin newBoard
          = drawNewBoard size board_colour margin) as E.
  { unfold drawBoard. cbn [Py.len length Z.of_nat Z.eqb Z.ltb Z.compare orb].
    rewrite drawNewBoard_eq. reflexivity. }
  rewrite E, drawNewBoard_eq. repeat split; reflexivity.
Qed.

(** Evaluates the reads of a list at a known index that the goal shows. *)
Ltac read_items :=
  repeat (match goal with
          | |- context [getitem ?l ?i] =>
              let r := eval vm_compute in (getitem l i) in
              match r with
              | MkDraw _ (Ok ?x) => change (getitem l i) with (ret x)
              end
          end; rewrite ?ret_bind).

(** The calls [drawBoard] makes on the board of nine empty cells, whatever
    the function that draws a marker does. *)
Lemma drawBoardWith_empty_board
    (marker : string -> Z * Z -> Z -> string -> Z -> Draw unit) (size : Z)
    (board_colour : string) (xy_colour : gmap string string) (margin : Z)
    (newBoard : bool) (colour : string) :
  xy_colour !! "" = Some colour ->
  drawBoardWith marker empty_board size board_colour xy_colour margin newBoard
  = ((if newBoard then drawNewBoard size board_colour margin else ret tt) ;;
     for_ positions (fun pos => marker "" pos size colour margin)).
Proof.
  intros Hc. unfold drawBoardWith.
  change (Py.len empty_board) with 3.
  cbn [Z.eqb orb Z.ltb Z.compare Pos.compare Pos.compare_cont].
  read_items.
  change (Py.len [""; ""; ""]) with 3.
  cbn [Z.ltb Z.compare Pos.compare Pos.compare_cont].
  change (Py.range 0 (3 * 3)) with [0; 1; 2; 3; 4; 5; 6; 7; 8].
  cbn [for_ positions]. cbv zeta.
  read_items.
  unfold lookup_key. rewrite Hc. rewrite !ret_bind.
  reflexivity.
Qed.

(** C4, as amended.  On the board of nine empty cells [drawBoard] calls the
    function that draws a marker nine times, for the empty team at the
    positions [(0,0)], [(0,1)], ..., [(2,2)] in this row-major order, each
    time with the colour the mapping gives the empty team; this is so
    whatever that function does, and [drawBoard] is this with [drawMarker]
    for the function.  Such a call of [drawMarker] hides the cursor and
    sets the pen colour, and draws nothing.  A blank board comes first only
    when [newBoard] is set: with the default [newBoard = False] none is
    drawn. *)
Theorem drawBoard_empty_cells (size : Z) (board_colour : string)
    (xy_colour : gmap string string) (margin : Z) (newBoard : bool) (colour : string) :
  xy_colour !! "" = Some colour ->
  (forall marker,
     drawBoardWith marker empty_board size board_colour xy_colour margin newBoard
     = ((if newBoard then drawNewBoard size board_colour margin else ret tt) ;;
        for_ positions (fun pos => marker "" pos size colour margin)))
  /\ drawBoardWith drawMarker = drawBoard
  /\ drawBoard empty_board size board_colour xy_colour margin newBoard
     = MkDraw (empty_board_trace newBoard size board_colour margin colour) (Ok tt)
  /\ (forall pos, trace (drawMarker "" pos size colour margin) = [HideTurtle; Color colour])
  /\ boards_drawn (trace (drawBoard empty_board size board_colour xy_colour margin false))
     = 0%nat.
Proof.
  intros Hc.
  assert (forall nb, drawBoard empty_board size board_colour xy_colour margin nb
          = MkDraw (empty_board_trace nb size board_colour margin colour) (Ok tt)) as E.
  { intros nb. rewrite drawBoard_loop; [|repeat constructor|done].
    rewrite for_moves_ok
      by (repeat (constructor; [by exists colour|]); constructor).
    cbn [trace result]. unfold empty_board_trace, markers, markerTrace. do 2 f_equal.
    cbn [cells empty_board board_cells row_cells positions map app fst snd].
    by rewrite !Hc. }
  split; [intros marker; by apply drawBoardWith_empty_board|].
  split; [reflexivity|].
  split; [apply E|]. split; [reflexivity|].
  rewrite E. reflexivity.
Qed.

Lemma drawBoard_empty_cells_witness :
  (forall marker,
     drawBoardWith marker empty_board 180 "white" default_xy_colour 30 false
     = ((if false then drawNewBoard 180 "white" 30 else ret tt) ;;
        for_ positions (fun pos => marker "" pos 180 "white" 30)))
  /\ drawBoardWith drawMarker = drawBoard
  /\ drawBoard empty_board 180 "white" default_xy_colour 30 false
     = MkDraw (empty_board_trace false 180 "white" 30 "white") (Ok tt)
  /\ (forall pos, trace (drawMarker "" pos 180 "white" 30) = [HideTurtle; Color "white"])
  /\ boards_drawn (trace (drawBoard empty_board 180 "white" default_xy_colour 30 false))
     = 0%nat.
Proof. apply (drawBoard_empty_cells 180 "white" default_xy_colour 30 false "white"). reflexivity. Defined.

(** A function for the marker that only goes to the position it is given
    tells the order of the calls: rows first. *)
Example drawBoard_call_order :
  targets (trace (drawBoardWith (fun _ pos _ _ _ => goto pos.1 pos.2)
                    empty_board 180 "white" default_xy_colour 30 false))
  = positions.
Proof. reflexivity. Qed.

(** C4 as stated fails: with [newBoard = False] the board of nine empty
    cells is not an empty list, and no blank board is drawn before the nine
    markers. *)
Lemma drawBoard_empty_cells_counterexample :
  default_xy_colour !! "" = Some "white"
  /\ drawBoard empty_board 180 "white" default_xy_colour 30 false
     <> MkDraw (empty_board_trace true 180 "white" 30 "white") (Ok tt).
Proof.
  split; [reflexivity|]. intros H. vm_compute in H. discriminate H.
Qed.


(** * Further properties of the module *)

(** ** What re-initialises the canvas *)

Lemma boards_drawn_app (t t' : list cmd) :
  boards_drawn (t ++ t') = (boards_drawn t + boards_drawn t')%nat.
Proof. unfold boards_drawn. by rewrite filter_app, length_app. Qed.

Lemma bind_no_reset {A B} (m : Draw A) (k : A -> Draw B) :
  boards_drawn (trace m) = 0%nat ->
  (forall a, boards_drawn (trace (k a)) = 0%nat) ->
  boards_drawn (trace (m ≫= k)) = 0%nat.
Proof.
  intros Hm Hk. destruct m as [t [a|e]]; [|done].
  rewrite bind_Ok. cbn [trace] in *. by rewrite boards_drawn_app, Hm, Hk.
Qed.

Lemma for_no_reset {A} (xs : list A) (body : A -> Draw unit) :
  (forall x, boards_drawn (trace (body x)) = 0%nat) ->
  boards_drawn (trace (for_ xs body)) = 0%nat.
Proof.
  intros H. induction xs as [|x xs IH]; [done|].
  cbn [for_]. by apply bind_no_reset.
Qed.

Lemma getitem_trace {A} (l : list A) (i : Z) : trace (getitem l i) = [].
Proof.
  unfold getitem. destruct (_ && _); [|done]. by destruct (l !! _).
Qed.

Lemma lookup_key_trace (d : gmap string string) (k : string) :
  trace (lookup_key d k) = [].
Proof. unfold lookup_key. by destruct (d !! k). Qed.

Lemma drawMarker_no_reset (team : string) (pos : Z * Z) (size : Z) (colour : string)
    (margin : Z) :
  boards_drawn (trace (drawMarker team pos size colour margin)) = 0%nat.
Proof.
  unfold drawMarker. cbv zeta.
  do 2 (apply bind_no_reset; [done|intros _]).
  destruct (String.eqb _ "o"); [|destruct (String.eqb _ "x")].
  - do 3 (apply bind_no_reset; [done|intros _]).
    apply for_no_reset. intros _. apply for_no_reset. by intros _.
  - done.
  - done.
Qed.

Lemma drawMove_no_reset (size : Z) (xy_colour : gmap string string) (margin : Z)
    (m : move) :
  boards_drawn (trace (drawMove size xy_colour margin m)) = 0%nat.
Proof.
  unfold drawMove. apply bind_no_reset; [by rewrite lookup_key_trace|].
  intros colour. apply drawMarker_no_reset.
Qed.

Lemma blank_boards_drawn (size : Z) (colour : string) (margin : Z) (b : bool) :
  boards_drawn (blank size colour margin b) = if b then 1%nat else 0%nat.
Proof. destruct b; [|done]. cbn [blank]. by rewrite drawNewBoard_eq. Qed.

(** X1.  Only a blank board re-initialises the canvas.  [drawMarker] and
    [drawWin] never do; [drawBoard] does it once when the board has no rows
    or [newBoard] is set, [drawGame] once when the game has no moves or
    [newBoard] is set, and neither does it otherwise: for every input, and
    also when the call ends with an exception. *)
Theorem canvas_reset_only_by_blank_board (size : Z) (board_colour : string)
    (xy_colour : gmap string string) (margin : Z) (newBoard : bool) :
  (forall team pos colour,
     boards_drawn (trace (drawMarker team pos size colour margin)) = 0%nat)
  /\ (forall startPos endPos colour,
        boards_drawn (trace (drawWin startPos endPos size colour margin)) = 0%nat)
  /\ (forall board,
        boards_drawn (trace (drawBoard board size board_colour xy_colour margin newBoard))
        = if (Py.len board =? 0) || newBoard then 1%nat else 0%nat)
  /\ (forall game numMoves,
        boards_drawn
          (trace (drawGame game numMoves size board_colour xy_colour margin newBoard))
        = if (Py.len game <? 1) || newBoard then 1%nat else 0%nat).
Proof.
  split; [intros; apply drawMarker_no_reset|].
  split; [done|]. split.
  - intros board. unfold drawBoard. rewrite blank_bind. cbn [trace].
    rewrite boards_drawn_app, blank_boards_drawn.
    match goal with |- (_ + ?r)%nat = _ => assert (r = 0%nat) as ->; [|lia] end.
    destruct (Py.len board <? 1); [done|].
    apply bind_no_reset; [by rewrite getitem_trace|]. intros row0.
    destruct (Py.len row0 <? 1); [done|].
    apply bind_no_reset; [by rewrite getitem_trace|]. intros row0'.
    apply for_no_reset. intros i. cbv zeta.
    apply bind_no_reset; [by rewrite getitem_trace|]. intros line.
    apply bind_no_reset; [by rewrite getitem_trace|]. intros team.
    apply bind_no_reset; [by rewrite lookup_key_trace|]. intros colour.
    apply drawMarker_no_reset.
  - intros game numMoves. unfold drawGame. rewrite blank_bind. cbn [trace].
    rewrite boards_drawn_app, blank_boards_drawn.
    match goal with |- (_ + ?r)%nat = _ => assert (r = 0%nat) as ->; [|lia] end.
    cbv zeta. apply for_no_reset. intros i.
    do 3 (apply bind_no_reset;
          [apply bind_no_reset; [by rewrite getitem_trace|done]|intros ?]).
    apply bind_no_reset; [by rewrite lookup_key_trace|]. intros colour.
    apply drawMarker_no_reset.
Qed.

(** ** Where the pen goes *)

(** X2.  On boards from 0 to 12290 pixels the grid stays on the board:
    every point [drawNewBoard] sends the pen to lies in the square of side
    [size] that the margin leaves free on the canvas of side
    [size + 2 * margin]; the grid itself has side [3 * floor(size / 3)], at
    most 2 short of [size]. *)
Theorem drawNewBoard_on_board (size : Z) (colour : string) (margin : Z) :
  0 <= size <= 12290 ->
  Forall (within margin margin size) (targets (trace (drawNewBoard size colour margin)))
  /\ trace (drawNewBoard size colour margin) = grid_trace size margin (size / 3) colour
  /\ size - 2 <= 3 * (size / 3) <= size.
Proof.
  intros Hs. rewrite drawNewBoard_eq, (cell_size_exact size Hs).
  cbn [trace grid_trace targets omap].
  assert (size - 2 <= 3 * (size / 3) <= size) as Hc
    by (pose proof (Z.div_mod size 3 ltac:(lia)); pose proof (Z.mod_pos_bound size 3 ltac:(lia)); lia).
  assert (0 <= size / 3) by (apply Z.div_pos; lia).
  split; [|done].
  repeat (constructor; [unfold within; cbn [fst snd]; lia|]). constructor.
Qed.

Lemma drawNewBoard_on_board_witness :
  Forall (within 30 30 180) (targets (trace (drawNewBoard 180 "white" 30)))
  /\ trace (drawNewBoard 180 "white" 30) = grid_trace 180 30 (180 / 3) "white"
  /\ 180 - 2 <= 3 * (180 / 3) <= 180.
Proof. apply (drawNewBoard_on_board 180 "white" 30). lia. Defined.

(** X3.  On boards from 0 to 12290 pixels each end of the win line lies in
    the cell it was asked for, the square of side [cellSize = floor(size/3)]
    at column [col] and row [row] of the grid; so for rows and columns from
    0 to 2 both ends lie on the board. *)
Theorem drawWin_ends_in_cells (startPos endPos : Z * Z) (size : Z) (colour : string)
    (margin : Z) :
  0 <= size <= 12290 ->
  let cellSize := size / 3 in
  let cell (p : Z * Z) := within (margin + cellSize * p.2) (margin + cellSize * p.1) cellSize in
  exists a b,
    targets (trace (drawWin startPos endPos size colour margin)) = [a; b]
    /\ cell startPos a /\ cell endPos b
    /\ (0 <= startPos.1 <= 2 -> 0 <= startPos.2 <= 2 -> within margin margin size a)
    /\ (0 <= endPos.1 <= 2 -> 0 <= endPos.2 <= 2 -> within margin margin size b).
Proof.
  intros Hs cellSize cell.
  assert (3 * cellSize <= size)
    by (subst cellSize; pose proof (Z.div_mod size 3 ltac:(lia));
        pose proof (Z.mod_pos_bound size 3 ltac:(lia)); lia).
  assert (0 <= cellSize) by (apply Z.div_pos; lia).
  assert (0 <= cellSize / 2 <= cellSize)
    by (pose proof (Z.div_mod cellSize 2 ltac:(lia));
        pose proof (Z.mod_pos_bound cellSize 2 ltac:(lia)); lia).
  exists (exact_centre size margin startPos), (exact_centre size margin endPos).
  split.
  - unfold drawWin. cbv zeta. unfold hideturtle, color, penup, pendown, goto.
    cbv [mbind Draw_bind bind emit trace result app targets omap list_omap].
    fold (cell_size size). fold (half (cell_size size)).
    rewrite (cell_size_exact size Hs).
    by rewrite (half_exact (size / 3)) by (by apply cellSize_checked).
  - unfold exact_centre. cbv zeta. fold cellSize. subst cell. unfold within. cbn [fst snd].
    repeat split; try lia; nia.
Qed.

Lemma drawWin_ends_in_cells_witness :
  exists a b,
    targets (trace (drawWin (0, 2) (2, 0) 180 "yellow" 30)) = [a; b]
    /\ within (30 + 180 / 3 * 2) (30 + 180 / 3 * 0) (180 / 3) a
    /\ within (30 + 180 / 3 * 0) (30 + 180 / 3 * 2) (180 / 3) b
    /\ (0 <= 0 <= 2 -> 0 <= 2 <= 2 -> within 30 30 180 a)
    /\ (0 <= 2 <= 2 -> 0 <= 0 <= 2 -> within 30 30 180 b).
Proof. apply (drawWin_ends_in_cells (0, 2) (2, 0) 180 "yellow" 30). lia. Defined.

(** ** The shapes of the markers *)

(** A loop that does the same thing in every round. *)
Lemma for_same {A} (xs : list A) (t : list cmd) :
  for_ xs (fun _ => MkDraw t (Ok tt))
  = MkDraw (concat (replicate (length xs) t)) (Ok tt).
Proof.
  induction xs as [|x xs IH]; [reflexivity|].
  cbn [for_ length replicate concat]. by rewrite IH, bind_Ok.
Qed.

Lemma drawMarker_O_eq (team : string) (pos : Z * Z) (size : Z) (colour : string)
    (margin : Z) :
  Py.lower team = "o" ->
  let cellSize := cell_size size in
  drawMarker team pos size colour margin
  = MkDraw ([HideTurtle; Color colour; PenUp;
             Goto (margin + cellSize * pos.2 + marker_offset cellSize)
                  (margin + cellSize * pos.1 + half cellSize);
             PenDown]
            ++ concat (replicate (Z.to_nat (o_steps cellSize))
                         [TurnRight (o_turn cellSize); Forward 1;
                          TurnRight (o_turn cellSize); Forward 1]))
           (Ok tt).
Proof.
  intros Ht cellSize. unfold drawMarker. cbv zeta. rewrite Ht. cbn [String.eqb Ascii.eqb Bool.eqb].
  fold (cell_size size). fold cellSize. fold (half cellSize).
  fold (marker_offset cellSize). fold (o_steps cellSize).
  fold (o_turn cellSize).
  change (for_ (Py.range 0 2) _)
    with (MkDraw [TurnRight (o_turn cellSize); Forward 1;
                  TurnRight (o_turn cellSize); Forward 1] (Ok tt)).
  rewrite for_same, length_range, Z.sub_0_r. reflexivity.
Qed.

Lemma drawMarker_X_eq (team : string) (pos : Z * Z) (size : Z) (colour : string)
    (margin : Z) :
  Py.lower team = "x" ->
  let cellSize := cell_size size in
  let d := marker_offset cellSize in
  let x0 := margin + cellSize * pos.2 in
  let y0 := margin + cellSize * pos.1 in
  drawMarker team pos size colour margin
  = MkDraw [HideTurtle; Color colour;
            PenUp; Goto (x0 + d) (y0 + d);
            PenDown; Goto (x0 + (cellSize - d)) (y0 + (cellSize - d));
            PenUp; Goto (x0 + (cellSize - d)) (y0 + d);
            PenDown; Goto (x0 + d) (y0 + (cellSize - d))] (Ok tt).
Proof.
  intros Ht cellSize d x0 y0. unfold drawMarker. cbv zeta. rewrite Ht. reflexivity.
Qed.

Section Rounds_of_the_O.
Variables (a : Py.float) (dx dy : Z).
Let round : list cmd := [TurnRight a; Forward 1; TurnRight a; Forward 1].

Lemma rounds_forward_steps (n : nat) :
  forward_steps (concat (replicate n round)) = (2 * n)%nat.
Proof.
  induction n as [|n IH]; [reflexivity|].
  unfold forward_steps in *. cbn [replicate concat].
  rewrite filter_app, length_app, IH.
  change (length (filter is_forward round)) with 2%nat. lia.
Qed.

Lemma rounds_targets (n : nat) : targets (concat (replicate n round)) = [].
Proof.
  induction n as [|n IH]; [reflexivity|].
  unfold targets in *. cbn [replicate concat]. by rewrite omap_app, IH.
Qed.

Lemma rounds_shift (n : nat) :
  shift dx dy <$> concat (replicate n round) = concat (replicate n round).
Proof.
  induction n as [|n IH]; [reflexivity|].
  cbn [replicate concat]. by rewrite fmap_app, IH.
Qed.
End Rounds_of_the_O.

(** X4.  For a size within the range of a double, a team that is an O in
    either case is drawn as a polygon: the pen is put down at the inset
    [math.floor(cellSize * 0.2)] from the left edge of the cell and at
    [math.floor(cellSize / 2)] below its top, with
    [cellSize = math.floor(size / 3)], and then come [steps] rounds of two
    unit steps, each after the same turn of [360 / (2 * steps)] degrees,
    with [steps = math.floor(1.4 * cellSize) - 2 * math.floor(cellSize * 0.2)],
    all of them as the function computes them in binary64; when [steps] is
    not positive no step is made.  The call ends normally. *)
Theorem drawMarker_O_polygon (team : string) (pos : Z * Z) (size : Z) (colour : string)
    (margin : Z) :
  Py.lower team = "o" -> in_double_range size ->
  let cellSize := cell_size size in
  let steps := Z.to_nat (o_steps cellSize) in
  drawMarker team pos size colour margin
  = MkDraw ([HideTurtle; Color colour; PenUp;
             Goto (margin + cellSize * pos.2 + marker_offset cellSize)
                  (margin + cellSize * pos.1 + half cellSize);
             PenDown]
            ++ concat (replicate steps
                         [TurnRight (o_turn cellSize); Forward 1;
                          TurnRight (o_turn cellSize); Forward 1]))
           (Ok tt)
  /\ forward_steps (trace (drawMarker team pos size colour margin)) = (2 * steps)%nat.
Proof.
  intros Ht _ cellSize steps.
  rewrite (drawMarker_O_eq team pos size colour margin Ht). fold cellSize. fold steps.
  split; [reflexivity|]. cbn [trace].
  unfold forward_steps. rewrite filter_app, length_app.
  change (length (filter is_forward (concat ?r))) with (forward_steps (concat r)).
  by rewrite rounds_forward_steps.
Qed.

Lemma drawMarker_O_polygon_witness :
  drawMarker "O" (1, 2) 180 "green" 30
  = MkDraw ([HideTurtle; Color "green"; PenUp;
             Goto (30 + cell_size 180 * (1, 2).2 + marker_offset (cell_size 180))
                  (30 + cell_size 180 * (1, 2).1 + half (cell_size 180));
             PenDown]
            ++ concat (replicate (Z.to_nat (o_steps (cell_size 180)))
                         [TurnRight (o_turn (cell_size 180)); Forward 1;
                          TurnRight (o_turn (cell_size 180)); Forward 1]))
           (Ok tt)
  /\ forward_steps (trace (drawMarker "O" (1, 2) 180 "green" 30))
     = (2 * Z.to_nat (o_steps (cell_size 180)))%nat.
Proof.
  apply (drawMarker_O_polygon "O" (1, 2) 180 "green" 30); [reflexivity|].
  unfold in_double_range. vm_compute. reflexivity.
Defined.

(** X5.  On boards up to 12290 pixels the float arithmetic of the O comes
    out as follows: the pen starts a fifth of the cell (rounded down) from
    the left edge of the cell, at half its height, which is its only
    [goto]; and the polygon has [2 * n] unit steps, where [n] differs from
    the cell size by at most one. *)
Theorem drawMarker_O_size (team : string) (pos : Z * Z) (size : Z) (colour : string)
    (margin : Z) :
  Py.lower team = "o" -> 0 <= size <= 12290 ->
  let cellSize := size / 3 in
  exists n : nat,
    cellSize - 1 <= Z.of_nat n <= cellSize + 1
    /\ forward_steps (trace (drawMarker team pos size colour margin)) = (2 * n)%nat
    /\ targets (trace (drawMarker team pos size colour margin))
       = [(margin + cellSize * pos.2 + cellSize / 5,
           margin + cellSize * pos.1 + cellSize / 2)].
Proof.
  intros Ht Hs cellSize.
  destruct (marker_offsets cellSize) as [Hd Hn]; [by apply cellSize_checked|].
  assert (0 <= cellSize) by (by apply cellSize_checked).
  exists (Z.to_nat (o_steps cellSize)). split; [lia|].
  rewrite (drawMarker_O_eq team pos size colour margin Ht).
  rewrite (cell_size_exact size Hs). fold cellSize.
  rewrite (half_exact cellSize) by (by apply cellSize_checked).
  cbn [trace].
  split.
  - unfold forward_steps. rewrite filter_app, length_app.
    change (length (filter is_forward (concat ?r))) with (forward_steps (concat r)).
    by rewrite rounds_forward_steps.
  - unfold targets. rewrite omap_app.
    change (omap _ (concat ?r)) with (targets (concat r)).
    rewrite rounds_targets, Hd. reflexivity.
Qed.

Lemma drawMarker_O_size_witness :
  exists n : nat,
    135 / 3 - 1 <= Z.of_nat n <= 135 / 3 + 1
    /\ forward_steps (trace (drawMarker "o" (0, 0) 135 "green" 30)) = (2 * n)%nat
    /\ targets (trace (drawMarker "o" (0, 0) 135 "green" 30))
       = [(30 + 135 / 3 * (0, 0).2 + 135 / 3 / 5, 30 + 135 / 3 * (0, 0).1 + 135 / 3 / 2)].
Proof. apply (drawMarker_O_size "o" (0, 0) 135 "green" 30); [reflexivity|lia]. Defined.

(** X6.  On boards up to 12290 pixels a team that is an X in either case is
    drawn as the two diagonals of one square: the cell shrunk on every side
    by a fifth of its size (rounded down), first from its top-left to its
    bottom-right corner, then from its top-right to its bottom-left corner.
    The pen never leaves the cell, and the call ends normally. *)
Theorem drawMarker_X_diagonals (team : string) (pos : Z * Z) (size : Z) (colour : string)
    (margin : Z) (down : bool) (at_ : option (Z * Z)) :
  Py.lower team = "x" -> 0 <= size <= 12290 ->
  let cellSize := size / 3 in
  let d := cellSize / 5 in
  let x0 := margin + cellSize * pos.2 in
  let y0 := margin + cellSize * pos.1 in
  result (drawMarker team pos size colour margin) = Ok tt
  /\ strokes down at_ (trace (drawMarker team pos size colour margin))
     = Some [((x0 + d, y0 + d), (x0 + cellSize - d, y0 + cellSize - d));
             ((x0 + cellSize - d, y0 + d), (x0 + d, y0 + cellSize - d))]
  /\ Forall (within x0 y0 cellSize)
       (targets (trace (drawMarker team pos size colour margin))).
Proof.
  intros Ht Hs cellSize d x0 y0.
  destruct (marker_offsets cellSize) as [Hd _]; [by apply cellSize_checked|].
  assert (0 <= cellSize) by (by apply cellSize_checked).
  assert (0 <= d /\ 2 * d <= cellSize) as Hdd
    by (subst d; pose proof (Z.div_mod cellSize 5 ltac:(lia));
        pose proof (Z.mod_pos_bound cellSize 5 ltac:(lia)); lia).
  rewrite (drawMarker_X_eq team pos size colour margin Ht).
  rewrite (cell_size_exact size Hs).
  fold cellSize. rewrite Hd. fold d x0 y0. cbn [trace result strokes fmap option_fmap option_map].
  split; [reflexivity|]. split.
  - do 2 f_equal; [|f_equal]; repeat (f_equal; try lia).
  - cbn [targets omap]. unfold within.
    repeat (constructor; [cbn [fst snd]; lia|]). constructor.
Qed.

Lemma drawMarker_X_diagonals_witness :
  result (drawMarker "X" (2, 1) 180 "red" 30) = Ok tt
  /\ strokes true None (trace (drawMarker "X" (2, 1) 180 "red" 30))
     = Some [((30 + 180 / 3 * (2, 1).2 + 180 / 3 / 5, 30 + 180 / 3 * (2, 1).1 + 180 / 3 / 5),
              (30 + 180 / 3 * (2, 1).2 + 180 / 3 - 180 / 3 / 5,
               30 + 180 / 3 * (2, 1).1 + 180 / 3 - 180 / 3 / 5));
             ((30 + 180 / 3 * (2, 1).2 + 180 / 3 - 180 / 3 / 5,
               30 + 180 / 3 * (2, 1).1 + 180 / 3 / 5),
              (30 + 180 / 3 * (2, 1).2 + 180 / 3 / 5,
               30 + 180 / 3 * (2, 1).1 + 180 / 3 - 180 / 3 / 5))]
  /\ Forall (within (30 + 180 / 3 * (2, 1).2) (30 + 180 / 3 * (2, 1).1) (180 / 3))
       (targets (trace (drawMarker "X" (2, 1) 180 "red" 30))).
Proof. apply (drawMarker_X_diagonals "X" (2, 1) 180 "red" 30 true None); [reflexivity|lia]. Defined.

(** X7.  A marker has the same shape in every cell: for a size within the
    range of a double and every team, the commands of [drawMarker] at row
    [r] and column [c] are those at row 0 and column 0 with every [goto]
    moved by [c] cells to the right and [r] cells down, a cell being
    [math.floor(size / 3)] as the function computes it; nothing else about
    them depends on the position. *)
Theorem drawMarker_translation (team : string) (r c : Z) (size : Z) (colour : string)
    (margin : Z) :
  in_double_range size ->
  let cellSize := cell_size size in
  trace (drawMarker team (r, c) size colour margin)
  = shift (cellSize * c) (cellSize * r) <$> trace (drawMarker team (0, 0) size colour margin).
Proof.
  intros _ cellSize.
  destruct (String.eqb (Py.lower team) "o") eqn:Eo;
    [|destruct (String.eqb (Py.lower team) "x") eqn:Ex].
  - apply String.eqb_eq in Eo.
    rewrite !(drawMarker_O_eq team _ size colour margin Eo). fold cellSize. cbn [trace fst snd].
    rewrite fmap_app, rounds_shift. cbn [fmap list_fmap shift].
    f_equal. do 3 f_equal. f_equal. f_equal; lia.
  - apply String.eqb_eq in Ex.
    rewrite !(drawMarker_X_eq team _ size colour margin Ex). fold cellSize.
    cbn [trace fst snd fmap list_fmap shift].
    repeat (f_equal; try lia).
  - unfold drawMarker. cbv zeta. rewrite Eo, Ex. reflexivity.
Qed.

Lemma drawMarker_translation_witness :
  trace (drawMarker "X" (2, 1) 180 "red" 30)
  = shift (cell_size 180 * 1) (cell_size 180 * 2)
      <$> trace (drawMarker "X" (0, 0) 180 "red" 30).
Proof.
  apply (drawMarker_translation "X" 2 1 180 "red" 30).
  unfold in_double_range. vm_compute. reflexivity.
Defined.

(** ** Boards that are not square *)

(** X8.  A board whose first row has no cells is drawn without markers:
    [drawBoard] returns normally whatever the other rows hold, after a
    blank board only if [newBoard] is set. *)
Theorem drawBoard_first_row_empty (rest : list (list string)) (size : Z)
    (board_colour : string) (xy_colour : gmap string string) (margin : Z)
    (newBoard : bool) :
  drawBoard ([] :: rest) size board_colour xy_colour margin newBoard
  = MkDraw (blank size board_colour margin newBoard) (Ok tt).
Proof.
  unfold drawBoard. rewrite blank_bind.
  assert (1 <= Py.len ([] :: rest)) by (unfold Py.len; cbn [length]; lia).
  destruct (Z.eqb_spec (Py.len ([] :: rest)) 0); [lia|].
  destruct (Z.ltb_spec (Py.len ([] :: rest)) 1); [lia|].
  rewrite (getitem_nonneg ([] :: rest) 0 []) by done.
  rewrite ret_bind. cbn [Py.len length Z.of_nat Z.ltb Z.compare orb trace result ret].
  by rewrite app_nil_r.
Qed.

Section BoardRounds.
Variables (board : list (list string)) (size : Z) (board_colour : string).
Variables (xy_colour : gmap string string) (margin : Z) (newBoard : bool).

(** The round of the loop of [drawBoard] at index [i]. *)
Let round (i : Z) : Draw unit :=
  let row := i / Py.len board in
  let col := i mod Py.len board in
  line ← getitem board row ;
  team ← getitem line col ;
  colour ← lookup_key xy_colour team ;
  drawMarker team (row, col) size colour margin.

(** With a first row that has a cell, [drawBoard] reaches its loop. *)
Lemma drawBoard_reaches_loop (row0 : list string) (rest : list (list string)) :
  board = row0 :: rest -> (1 <= length row0)%nat ->
  drawBoard board size board_colour xy_colour margin newBoard
  = MkDraw (blank size board_colour margin newBoard
            ++ trace (for_ (Py.range 0 (Py.len board * Py.len row0)) round))
           (result (for_ (Py.range 0 (Py.len board * Py.len row0)) round)).
Proof.
  intros Eb Hrow0. unfold drawBoard.
  assert (1 <= Py.len board) as Hlen by (rewrite Eb; unfold Py.len; cbn [length]; lia).
  destruct (Z.eqb_spec (Py.len board) 0) as [|_]; [lia|].
  cbn [orb]. rewrite blank_bind.
  destruct (Z.ltb_spec (Py.len board) 1) as [|_]; [lia|].
  rewrite (getitem_nonneg board 0 row0) by (by rewrite ?Eb).
  rewrite !ret_bind.
  destruct (Z.ltb_spec (Py.len row0) 1) as [|_]; [unfold Py.len in *; lia|].
  reflexivity.
Qed.

(** A round at an index whose row and column hold a cell. *)
Lemma drawBoard_round_cell (i : Z) (line : list string) (v : string) :
  0 <= i -> 0 < Py.len board ->
  board !! Z.to_nat (i / Py.len board) = Some line ->
  line !! Z.to_nat (i mod Py.len board) = Some v ->
  round i = drawMove size xy_colour margin (i / Py.len board, i mod Py.len board, v).
Proof.
  intros Hi Hn Hline Hv. unfold round. cbv zeta.
  rewrite (getitem_nonneg board _ line) by first [by apply Z.div_pos | done].
  rewrite ret_bind.
  rewrite (getitem_nonneg line _ v) by first [by apply Z.mod_pos_bound | done].
  by rewrite ret_bind.
Qed.

(** A round at an index whose row is beyond the last row. *)
Lemma drawBoard_round_no_row (i : Z) :
  Py.len board <= i / Py.len board -> round i = raise IndexError.
Proof.
  intros H. unfold round. cbv zeta.
  rewrite (getitem_out board) by (by right). by rewrite raise_bind.
Qed.

(** A round at an index whose column is beyond the end of its row. *)
Lemma drawBoard_round_no_cell (i : Z) (line : list string) :
  0 <= i -> 0 < Py.len board ->
  board !! Z.to_nat (i / Py.len board) = Some line ->
  Py.len line <= i mod Py.len board ->
  round i = raise IndexError.
Proof.
  intros Hi Hn Hline H. unfold round. cbv zeta.
  rewrite (getitem_nonneg board _ line) by first [by apply Z.div_pos | done].
  rewrite ret_bind.
  rewrite (getitem_out line) by (by right). by rewrite raise_bind.
Qed.
End BoardRounds.

Lemma row_cells_has_colour (xy_colour : gmap string string) (r c : Z)
    (row : list string) :
  Forall (fun v => is_Some (xy_colour !! v)) row ->
  Forall (has_colour xy_colour) (row_cells r c row).
Proof.
  intros H. revert c. induction H as [|v row Hv _ IH]; intros c; cbn [row_cells]; by constructor.
Qed.

(** X9.  A board with more rows than its first row has cells is not drawn
    to the end.  The column of a cell is taken modulo the number of rows,
    so the loop walks along the first row, draws its markers (when their
    values have a colour), and then reads the first row one place past its
    end: [drawBoard] raises [IndexError], and no other row is drawn. *)
Theorem drawBoard_tall (row0 : list string) (rest : list (list string)) (size : Z)
    (board_colour : string) (xy_colour : gmap string string) (margin : Z)
    (newBoard : bool) :
  (1 <= length row0 < length (row0 :: rest))%nat ->
  Forall (fun v => is_Some (xy_colour !! v)) row0 ->
  drawBoard (row0 :: rest) size board_colour xy_colour margin newBoard
  = MkDraw (blank size board_colour margin newBoard
            ++ markers size xy_colour margin (row_cells 0 0 row0))
           (Raised IndexError).
Proof.
  intros Hm Hc. set (board := row0 :: rest) in *.
  rewrite (drawBoard_reaches_loop board _ _ _ _ _ row0 rest eq_refl) by lia.
  set (n := Py.len board). set (m := Py.len row0).
  assert (1 <= m < n) as Hmn by (unfold m, n, Py.len; lia).
  match goal with |- context [for_ (Py.range 0 (n * m)) ?body] =>
    assert (for_ (Py.range 0 (n * m)) body
            = MkDraw (markers size xy_colour margin (row_cells 0 0 row0))
                     (Raised IndexError)) as ->; [|reflexivity]
  end.
  rewrite (range_app 0 m (n * m)) by nia.
  rewrite (range_cons m (n * m)) by nia.
  rewrite for_app.
  replace m with (0 + Py.len (row_cells 0 0 row0)) at 1
    by (unfold m, Py.len; rewrite length_row_cells; lia).
  rewrite (for_range_lookup (row_cells 0 0 row0) 0 _ (drawMove size xy_colour margin)).
  - rewrite for_moves_ok by by apply row_cells_has_colour.
    rewrite bind_Ok. rewrite (for_raise m _ _ IndexError).
    + cbn [trace result raise]. by rewrite app_nil_r.
    + apply (drawBoard_round_no_cell board size xy_colour margin m row0); fold n.
      * lia.
      * lia.
      * by rewrite Z.div_small by lia.
      * rewrite Z.mod_small by lia. unfold m. lia.
  - intros k x Hk. apply lookup_lt_Some in Hk as Hlt. rewrite length_row_cells in Hlt.
    destruct (lookup_lt_is_Some_2 row0 k Hlt) as [v Hv].
    pose proof (eq_trans (eq_sym Hk) (row_cells_lookup 0 0 row0 k v Hv)) as Ex.
    injection Ex as ->.
    assert (0 <= 0 + Z.of_nat k < n) as Hkn by (unfold m, Py.len in Hmn; lia).
    etrans.
    { apply (drawBoard_round_cell board size xy_colour margin (0 + Z.of_nat k) row0 v);
        fold n.
      - lia.
      - lia.
      - by rewrite Z.div_small by lia.
      - rewrite Z.mod_small by lia. by rewrite Z.add_0_l, Nat2Z.id. }
    fold n. by rewrite Z.div_small, Z.mod_small by lia.
Qed.

Lemma drawBoard_tall_witness :
  drawBoard [["X"; "O"]; ["O"; "X"]; ["X"; "X"]] 180 "white" default_xy_colour 30 false
  = MkDraw (blank 180 "white" 30 false
            ++ markers 180 default_xy_colour 30 (row_cells 0 0 ["X"; "O"]))
           (Raised IndexError).
Proof.
  apply (drawBoard_tall ["X"; "O"] [["O"; "X"]; ["X"; "X"]] 180 "white"
           default_xy_colour 30 false).
  - cbn. lia.
  - repeat (constructor; [by eexists|]). constructor.
Defined.

(** X10.  A board whose first row has more cells than the board has rows
    is not drawn to the end either.  With [n] rows, each of at least [n]
    cells, the loop draws the first [n] cells of every row in row-major
    order (when their values have a colour) and never looks at a cell
    further right; it then asks for row [n], and [drawBoard] raises
    [IndexError]. *)
Theorem drawBoard_wide (row0 : list string) (rest : list (list string)) (size : Z)
    (board_colour : string) (xy_colour : gmap string string) (margin : Z)
    (newBoard : bool) :
  let board := row0 :: rest in
  let block := take (length board) <$> board in
  (length board < length row0)%nat ->
  Forall (fun row => (length board <= length row)%nat) board ->
  Forall (has_colour xy_colour) (cells block) ->
  drawBoard board size board_colour xy_colour margin newBoard
  = MkDraw (blank size board_colour margin newBoard
            ++ markers size xy_colour margin (cells block))
           (Raised IndexError).
Proof.
  intros board block Hm Hrows Hc.
  rewrite (drawBoard_reaches_loop board _ _ _ _ _ row0 rest eq_refl) by lia.
  set (n := Py.len board). set (m := Py.len row0).
  assert (1 <= length board)%nat as Hl1 by (unfold board; cbn [length]; lia).
  assert (1 <= n < m) as Hnm by (unfold m, n, Py.len; lia).
  assert (Forall (fun row => length row = length board) block) as Hsq.
  { apply Forall_fmap. eapply Forall_impl; [exact Hrows|].
    intros row Hrow. cbn. by rewrite length_take_le. }
  assert (length (cells block) = (length board * length board)%nat) as Hlen.
  { unfold cells. rewrite (length_board_cells (length board) 0 block Hsq).
    unfold block. by rewrite length_fmap. }
  match goal with |- context [for_ (Py.range 0 (n * m)) ?body] =>
    assert (for_ (Py.range 0 (n * m)) body
            = MkDraw (markers size xy_colour margin (cells block))
                     (Raised IndexError)) as ->; [|reflexivity]
  end.
  rewrite (range_app 0 (n * n) (n * m)) by nia.
  rewrite (range_cons (n * n) (n * m)) by nia.
  rewrite for_app.
  replace (n * n) with (0 + Py.len (cells block)) at 1
    by (unfold n, Py.len; rewrite Hlen; lia).
  rewrite (for_range_lookup (cells block) 0 _ (drawMove size xy_colour margin)).
  - rewrite for_moves_ok by done.
    rewrite bind_Ok. rewrite (for_raise (n * n) _ _ IndexError).
    + cbn [trace result raise]. by rewrite app_nil_r.
    + apply (drawBoard_round_no_row board size xy_colour margin (n * n)). fold n.
      rewrite Z.div_mul by lia. lia.
  - intros k x Hk. apply lookup_lt_Some in Hk as Hlt. rewrite Hlen in Hlt.
    set (l := length board) in *.
    assert (0 < l)%nat as Hl by lia.
    pose proof (Nat.div_mod_eq k l) as Ek.
    pose proof (Nat.mod_upper_bound k l ltac:(lia)) as Hcol.
    assert (k / l < l)%nat as Hj by (apply Nat.Div0.div_lt_upper_bound; lia).
    destruct (lookup_lt_is_Some_2 board (k / l)) as [row Hrow]; [done|].
    assert (l <= length row)%nat as Hrl
      by (eapply (proj1 (Forall_lookup _ _) Hrows); eassumption).
    destruct (lookup_lt_is_Some_2 row (k mod l)) as [v Hv]; [lia|].
    assert (block !! (k / l)%nat = Some (take l row)) as Hbrow
      by (unfold block; by rewrite list_lookup_fmap, Hrow).
    assert (take l row !! (k mod l)%nat = Some v) as Hbv
      by (by rewrite lookup_take_lt).
    pose proof (board_cells_lookup l 0 block (k / l) (k mod l) _ v Hsq Hbrow Hbv) as Hcell.
    replace (k / l * l + k mod l)%nat with k in Hcell by lia.
    pose proof (eq_trans (eq_sym Hk) Hcell) as Ex. injection Ex as ->.
    assert (n = Z.of_nat l) as En by done.
    etrans.
    { apply (drawBoard_round_cell board size xy_colour margin (0 + Z.of_nat k) row v);
        fold n; rewrite ?Z.add_0_l, ?En, <- ?Nat2Z.inj_div, <- ?Nat2Z.inj_mod, ?Nat2Z.id.
      - lia.
      - lia.
      - done.
      - done. }
    fold n. by rewrite !Z.add_0_l, En, <- Nat2Z.inj_div, <- Nat2Z.inj_mod.
Qed.

Lemma drawBoard_wide_witness :
  drawBoard [["X"; "O"; "Z"]; ["O"; "X"; "Z"]] 180 "white" default_xy_colour 30 false
  = MkDraw (blank 180 "white" 30 false
            ++ markers 180 default_xy_colour 30
                 (cells (take (length [["X"; "O"; "Z"]; ["O"; "X"; "Z"]])
                           <$> [["X"; "O"; "Z"]; ["O"; "X"; "Z"]])))
           (Raised IndexError).
Proof.
  apply (drawBoard_wide ["X"; "O"; "Z"] [["O"; "X"; "Z"]] 180 "white"
           default_xy_colour 30 false).
  - cbn. lia.
  - repeat (constructor; [cbn; lia|]). constructor.
  - repeat (constructor; [by eexists|]). constructor.
Defined.

(** ** Boards and games *)

Lemma cells_nonempty (board : list (list string)) :
  square board -> board <> [] -> (1 <= length (cells board))%nat.
Proof.
  intros Hsq Hne. unfold cells.
  rewrite (length_board_cells (length board) 0 board Hsq).
  destruct board; [done|]. cbn [length]. lia.
Qed.

Lemma window_all (numMoves : Z) (game : list move) :
  numMoves < 1 -> window numMoves game = game.
Proof. intros H. unfold window. by destruct (Z.leb_spec 1 numMoves); [lia|]. Qed.

(** X11.  Drawing a square board is drawing the game of its cells: for a
    board with as many cells in every row as it has rows, at least one,
    [drawBoard] issues the commands of [drawGame] on the cells of the board
    in row-major order, each as the move [(row, col, value)], with a
    [numMoves] below 1, and ends the same way, also when a value has no
    colour. *)
Theorem drawBoard_as_game (board : list (list string)) (numMoves size : Z)
    (board_colour : string) (xy_colour : gmap string string) (margin : Z)
    (newBoard : bool) :
  square board -> board <> [] -> numMoves < 1 ->
  drawBoard board size board_colour xy_colour margin newBoard
  = drawGame (cells board) numMoves size board_colour xy_colour margin newBoard.
Proof.
  intros Hsq Hne Hn.
  pose proof (cells_nonempty board Hsq Hne) as Hc.
  rewrite drawBoard_loop by done.
  rewrite drawGame_loop by (unfold Py.len; lia).
  rewrite window_all by done.
  destruct (Z.ltb_spec (Py.len (cells board)) 1) as [Hlt|_];
    [unfold Py.len in Hlt; lia|].
  reflexivity.
Qed.

Lemma drawBoard_as_game_witness :
  drawBoard [["X"; "o"]; [""; "O"]] 180 "white" default_xy_colour 30 true
  = drawGame (cells [["X"; "o"]; [""; "O"]]) 0 180 "white" default_xy_colour 30 true.
Proof.
  apply (drawBoard_as_game [["X"; "o"]; [""; "O"]] 0 180 "white" default_xy_colour 30 true).
  - repeat constructor.
  - discriminate.
  - lia.
Defined.

(** X12.  [numMoves] only selects the moves to draw: with [numMoves] no
    more than the length of the game, [drawGame] does what it does on the
    game of the selected moves alone (the last [numMoves] moves, or all of
    them below 1) with every move drawn, and ends the same way.  In
    particular [numMoves = len(game)] and [numMoves < 1] draw the same. *)
Theorem drawGame_selects (game : list move) (numMoves all size : Z)
    (board_colour : string) (xy_colour : gmap string string) (margin : Z)
    (newBoard : bool) :
  numMoves <= Py.len game -> all < 1 ->
  drawGame game numMoves size board_colour xy_colour margin newBoard
  = drawGame (window numMoves game) all size board_colour xy_colour margin newBoard
  /\ window (Py.len game) game = game.
Proof.
  intros Hn Hall. split.
  - rewrite (drawGame_loop game) by done.
    rewrite (drawGame_loop (window numMoves game)) by (unfold Py.len; lia).
    rewrite (window_all all) by done.
    replace (Py.len (window numMoves game) <? 1) with (Py.len game <? 1); [done|].
    unfold window, lastMoves, Py.len in *.
    destruct (Z.leb_spec 1 numMoves); [|done].
    rewrite length_drop.
    destruct (Z.ltb_spec (Z.of_nat (length game)) 1),
      (Z.ltb_spec (Z.of_nat (length game - (length game - Z.to_nat numMoves))) 1);
      (done || lia).
  - unfold window, lastMoves, Py.len.
    destruct (1 <=? _); [|done].
    by replace (length game - Z.to_nat (Z.of_nat (length game)))%nat with 0%nat by lia.
Qed.

Lemma drawGame_selects_witness :
  let game := [(0, 0, "X"); (1, 1, "O"); (0, 1, "q")] in
  drawGame game 2 180 "white" default_xy_colour 30 false
  = drawGame (window 2 game) (-1) 180 "white" default_xy_colour 30 false
  /\ window (Py.len game) game = game.
Proof.
  intros game.
  apply (drawGame_selects game 2 (-1) 180 "white" default_xy_colour 30 false).
  - unfold Py.len. cbn. lia.
  - lia.
Defined.

(** X13.  Moves can be drawn as they are played.  When every team has a
    colour, drawing a game that was not empty before its latest moves, all
    at once, issues the commands of drawing it before those moves followed
    by the commands of drawing only the latest moves, [numMoves] being
    their number; no blank board is drawn in between, and the calls end
    normally. *)
Theorem drawGame_incremental (old new : list move) (all size : Z)
    (board_colour : string) (xy_colour : gmap string string) (margin : Z) :
  old <> [] -> new <> [] -> all < 1 ->
  Forall (has_colour xy_colour) (old ++ new) ->
  let draw game numMoves :=
    drawGame game numMoves size board_colour xy_colour margin false in
  trace (draw (old ++ new) all)
  = trace (draw old all) ++ trace (draw (old ++ new) (Py.len new))
  /\ result (draw (old ++ new) all) = Ok tt
  /\ result (draw old all) = Ok tt
  /\ result (draw (old ++ new) (Py.len new)) = Ok tt.
Proof.
  intros Hold Hnew Hall Hc draw. subst draw. cbv beta.
  apply Forall_app in Hc as [Hco Hcn].
  assert (1 <= length old)%nat by (destruct old; [done|cbn; lia]).
  assert (1 <= length new)%nat by (destruct new; [done|cbn; lia]).
  assert (window (Py.len new) (old ++ new) = new) as Hw.
  { unfold window, lastMoves, Py.len.
    destruct (Z.leb_spec 1 (Z.of_nat (length new))); [|lia].
    rewrite length_app.
    replace (length old + length new - Z.to_nat (Z.of_nat (length new)))%nat
      with (length old) by lia.
    by rewrite drop_app_length. }
  rewrite (drawGame_loop (old ++ new) _ _ _ _ _ all) by (unfold Py.len; lia).
  rewrite (drawGame_loop old) by (unfold Py.len; lia).
  rewrite (drawGame_loop (old ++ new) _ _ _ _ _ (Py.len new))
    by (unfold Py.len; rewrite length_app; lia).
  rewrite !window_all by done. rewrite Hw.
  rewrite !for_moves_ok by first [done | by apply Forall_app].
  destruct (Z.ltb_spec (Py.len (old ++ new)) 1) as [Hlt|_];
    [unfold Py.len in Hlt; rewrite length_app in Hlt; lia|].
  destruct (Z.ltb_spec (Py.len old) 1) as [Hlt|_]; [unfold Py.len in Hlt; lia|].
  cbn [orb blank trace result app].
  unfold markers. by rewrite map_app, concat_app.
Qed.

Lemma drawGame_incremental_witness :
  let draw game numMoves := drawGame game numMoves 180 "white" default_xy_colour 30 false in
  trace (draw ([(0, 0, "X"); (1, 1, "O")] ++ [(0, 1, "X")]) (-1))
  = trace (draw [(0, 0, "X"); (1, 1, "O")] (-1))
    ++ trace (draw ([(0, 0, "X"); (1, 1, "O")] ++ [(0, 1, "X")]) (Py.len [(0, 1, "X")]))
  /\ result (draw ([(0, 0, "X"); (1, 1, "O")] ++ [(0, 1, "X")]) (-1)) = Ok tt
  /\ result (draw [(0, 0, "X"); (1, 1, "O")] (-1)) = Ok tt
  /\ result (draw ([(0, 0, "X"); (1, 1, "O")] ++ [(0, 1, "X")]) (Py.len [(0, 1, "X")]))
     = Ok tt.
Proof.
  apply (drawGame_incremental [(0, 0, "X"); (1, 1, "O")] [(0, 1, "X")] (-1) 180 "white"
           default_xy_colour 30).
  - discriminate.
  - discriminate.
  - lia.
  - repeat (constructor; [by eexists|]). constructor.
Defined.

(** X14.  A [numMoves] above twice the length of the game is always an
    error: the first index lies before the start of the list, so after the
    blank board of an empty game or of [newBoard] the call raises
    [IndexError], and no marker is drawn, whatever the teams. *)
Theorem drawGame_beyond_twice (game : list move) (numMoves size : Z)
    (board_colour : string) (xy_colour : gmap string string) (margin : Z)
    (newBoard : bool) :
  2 * Py.len game < numMoves ->
  drawGame game numMoves size board_colour xy_colour margin newBoard
  = MkDraw (blank size board_colour margin ((Py.len game <? 1) || newBoard))
           (Raised IndexError).
Proof. intros Hn. by apply drawGame_IndexError. Qed.

Lemma drawGame_beyond_twice_witness :
  drawGame [(0, 0, "X"); (1, 1, "O")] 5 180 "white" default_xy_colour 30 false
  = MkDraw (blank 180 "white" 30 ((Py.len [(0, 0, "X"); (1, 1, "O")] <? 1) || false))
           (Raised IndexError).
Proof.
  apply (drawGame_beyond_twice [(0, 0, "X"); (1, 1, "O")] 5 180 "white"
           default_xy_colour 30 false).
  unfold Py.len. cbn. lia.
Defined.
